(** * testrail-cli: the result-mapping and submission core

    A shallow embedding of [src/core.js] (module [Core]) and of the earlier
    revision of the same file that the repository also ships (module
    [Part000]), with the properties of the specification stated on them.

    Conventions of the embedding.
    - The parsed XML tree produced by [xml-parser] is the input: a node has a
      [name], an [attributes] object and a [children] array.
    - [configs.caseNameToIdMap] and [configs.caseClassAndNameToIdMap] are
      string-keyed objects holding integers; they are finite maps here.  Keys
      inherited from [Object.prototype] are not modelled.
    - [process.exit] ends the run; [console.log], [console.error] and the
      calls to the TestRail client are recorded, in order, in a trace.
    - [HtmlEntities.decode] (package html-entities) and [JSON.parse] are
      parameters of the development. *)

From stdpp Require Import gmap strings list pretty.
From Stdlib Require Import ZArith Lia Ascii Permutation.

Local Open Scope Z_scope.
Set Warnings "-register-all".

(** ** JavaScript values *)

(** Numbers.  The finite ones are exact decimals [m * 10^e]; the rounding of
    IEEE doubles and the exponent notation that [ToString] uses from
    [1e21] on are outside the model. *)
Inductive JsNumber : Type :=
  | NaN
  | Infinity (negative : bool)
  | Dec (m e : Z).

Inductive JsValue : Type :=
  | VUndefined
  | VNull
  | VBool (b : bool)
  | VNum (n : JsNumber)
  | VStr (s : string)
  | VArr (items : list JsValue)
  | VObj (fields : list (string * JsValue)).

Definition VInt (z : Z) : JsValue := VNum (Dec z 0).

(** [if (v)]: the ToBoolean conversion. *)
Definition truthy (v : JsValue) : bool :=
  match v with
  | VUndefined | VNull => false
  | VBool b => b
  | VNum NaN => false
  | VNum (Infinity _) => true
  | VNum (Dec m _) => negb (m =? 0)
  | VStr s => negb (String.eqb s "")
  | VArr _ | VObj _ => true
  end.

(** *** Strings to numbers *)

Definition is_space (c : ascii) : bool :=
  let n := nat_of_ascii c in
  (Nat.eqb n 32 || (Nat.leb 9 n && Nat.leb n 13))%bool.

Definition digit_of (base : nat) (c : ascii) : option Z :=
  let n := nat_of_ascii c in
  let d :=
    if (Nat.leb 48 n && Nat.leb n 57)%bool then Some (n - 48)%nat
    else if (Nat.leb 97 n && Nat.leb n 102)%bool then Some (n - 87)%nat
    else if (Nat.leb 65 n && Nat.leb n 70)%bool then Some (n - 55)%nat
    else None in
  match d with
  | Some k => if Nat.ltb k base then Some (Z.of_nat k) else None
  | None => None
  end.

(** Reads the longest prefix of digits in [base]; returns its value, the
    number of digits read and the rest. *)
Fixpoint read_digits (base : nat) (l : list ascii) (acc : Z) (count : nat)
  : Z * nat * list ascii :=
  match l with
  | c :: rest =>
      match digit_of base c with
      | Some d => read_digits base rest (acc * Z.of_nat base + d) (S count)
      | None => (acc, count, l)
      end
  | [] => (acc, count, [])
  end.

Fixpoint drop_spaces (l : list ascii) : list ascii :=
  match l with
  | c :: rest => if is_space c then drop_spaces rest else l
  | [] => []
  end.

Definition trim (l : list ascii) : list ascii :=
  rev (drop_spaces (rev (drop_spaces l))).

Definition read_sign (l : list ascii) : bool * list ascii :=
  match l with
  | "-"%char :: rest => (true, rest)
  | "+"%char :: rest => (false, rest)
  | _ => (false, l)
  end.

Definition read_exponent (l : list ascii) : option Z :=
  match l with
  | [] => Some 0
  | c :: rest =>
      if (Ascii.eqb c "e" || Ascii.eqb c "E")%bool then
        let '(neg, rest) := read_sign rest in
        match read_digits 10 rest 0 0 with
        | (_, O, _) => None
        | (v, _, []) => Some (if neg then - v else v)
        | _ => None
        end
      else None
  end.

Definition read_decimal (l : list ascii) : JsNumber :=
  let '(neg, l) := read_sign l in
  if decide (l = String.list_ascii_of_string "Infinity") then Infinity neg else
  let '(ip, ni, l) := read_digits 10 l 0 0 in
  let '(m, nf, l) :=
    match l with
    | "."%char :: rest => read_digits 10 rest ip 0
    | _ => (ip, O, l)
    end in
  match (ni + nf)%nat with
  | O => NaN
  | _ =>
      match read_exponent l with
      | Some x => Dec (if neg then - m else m) (x - Z.of_nat nf)
      | None => NaN
      end
  end.

Definition read_radix (base : nat) (l : list ascii) : JsNumber :=
  match read_digits base l 0 0 with
  | (_, O, _) => NaN
  | (v, _, []) => Dec v 0
  | _ => NaN
  end.

(** The prefix [0x], [0o] or [0b] (in either case) of a literal in
    another radix, and what follows it. *)
Definition radix_prefix (l : list ascii) : option (nat * list ascii) :=
  match l with
  | c0 :: c1 :: rest =>
      if Ascii.eqb c0 "0" then
        if (Ascii.eqb c1 "x" || Ascii.eqb c1 "X")%bool then Some (16%nat, rest)
        else if (Ascii.eqb c1 "o" || Ascii.eqb c1 "O")%bool then Some (8%nat, rest)
        else if (Ascii.eqb c1 "b" || Ascii.eqb c1 "B")%bool then Some (2%nat, rest)
        else None
      else None
  | _ => None
  end.

(** ToNumber on a string (the StringNumericLiteral grammar). *)
Definition StringToNumber (s : string) : JsNumber :=
  match trim (String.list_ascii_of_string s) with
  | [] => Dec 0 0
  | l =>
      match radix_prefix l with
      | Some (base, digits) => read_radix base digits
      | None => read_decimal l
      end
  end.

(** [Math.ceil]. *)
Definition Math_ceil (n : JsNumber) : JsNumber :=
  match n with
  | Dec m e => if 0 <=? e then Dec (m * 10 ^ e) 0 else Dec (- ((- m) / 10 ^ (- e))) 0
  | _ => n
  end.

(** *** Values to strings *)

(** Drops the trailing zeros of a fraction [f / 10^k]. *)
Fixpoint strip_zeros (fuel : nat) (f : Z) (k : nat) : Z * nat :=
  match fuel, k with
  | S fuel', S k' => if f mod 10 =? 0 then strip_zeros fuel' (f / 10) k' else (f, k)
  | _, _ => (f, k)
  end.

Fixpoint zeros (n : nat) : string :=
  match n with
  | O => ""
  | S n' => "0" +:+ zeros n'
  end.

(** ToString on a number. *)
Definition NumberToString (n : JsNumber) : string :=
  match n with
  | NaN => "NaN"
  | Infinity false => "Infinity"
  | Infinity true => "-Infinity"
  | Dec m e =>
      if 0 <=? e then pretty (m * 10 ^ e)
      else
        let p := 10 ^ (- e) in
        let ip := Z.abs m / p in
        let fp := Z.abs m mod p in
        if fp =? 0 then pretty (Z.sgn m * ip)
        else
          let '(f, k) := strip_zeros (Z.to_nat (- e)) fp (Z.to_nat (- e)) in
          let digits := pretty f in
          (if m <? 0 then "-" else "") +:+ pretty ip +:+ "."
            +:+ zeros (k - String.length digits) +:+ digits
  end.

Fixpoint join (sep : string) (l : list string) : string :=
  match l with
  | [] => ""
  | [s] => s
  | s :: rest => s +:+ sep +:+ join sep rest
  end.

(** ToString, as string concatenation with [+] applies it. *)
Fixpoint ToString (v : JsValue) : string :=
  match v with
  | VUndefined => "undefined"
  | VNull => "null"
  | VBool true => "true"
  | VBool false => "false"
  | VNum n => NumberToString n
  | VStr s => s
  | VArr items =>
      join "," (map (fun x => match x with
                              | VUndefined | VNull => ""
                              | _ => ToString x
                              end) items)
  | VObj _ => "[object Object]"
  end.

(** Property access [v.key]: a TypeError on [undefined] and [null]
    ([None] here), the own property of an object, [undefined] elsewhere. *)
Fixpoint assoc (key : string) (fields : list (string * JsValue)) : JsValue :=
  match fields with
  | [] => VUndefined
  | (k, v) :: rest => if String.eqb k key then v else assoc key rest
  end.

Definition get_prop (v : JsValue) (key : string) : option JsValue :=
  match v with
  | VUndefined | VNull => None
  | VObj fields => Some (assoc key fields)
  | _ => Some VUndefined
  end.

(** ** The parsed XML tree and the configuration *)

(** A node of [xml-parser]: [attributes] maps attribute names to their
    text, [children] holds the element children in document order. *)
Inductive Node : Type :=
  MkNode { name : string; attributes : gmap string string; children : list Node }.

(** [configs]: the two tables are optional properties; [debug] is read for
    its truth value only. *)
Record Configs : Type := {
  configs_debug : bool;
  caseNameToIdMap : option (gmap string Z);
  caseClassAndNameToIdMap : option (gmap string (gmap string Z))
}.

(** The object sent per test case.  An absent property is [None]; [case_id]
    is [None] when the lookup gave [null] or [undefined]. *)
Record CaseResult : Type := {
  case_id : option Z;
  elapsed : option string;
  status_id : Z;
  comment : option string;
  version : option string
}.

(** ** Effects: the console, the TestRail client, process exit *)

Inductive ApiCall : Type :=
  | addRun (projectId suiteId name description milestoneId : JsValue)
  | closeRun (runId : JsValue)
  | addResultsForCases (runId : JsValue) (results : list CaseResult).

(** What is handed to [console.log] or [console.error]. *)
Inductive Printed : Type :=
  | PStr (s : string)
  | PVal (v : JsValue)
  | PCase (r : CaseResult)
  | PCases (rs : list CaseResult)
  | PNode (n : Node)
  | PFiles (files : list string).

Inductive Event : Type :=
  | Log (p : Printed)
  | Error (p : Printed)
  | Call (c : ApiCall).

(** [apiCallsAttempted] is the counter closed over by the three commands;
    [trace] lists the events so far, oldest first. *)
Record World : Type := {
  apiCallsAttempted : nat;
  trace : list Event
}.

Definition api_calls (t : list Event) : list ApiCall :=
  omap (fun e => match e with Call c => Some c | _ => None end) t.

Inductive Result (A : Type) : Type :=
  | Ret (a : A)
  | Exit (code : Z)
  | Throw (err : string)
  | OutOfFuel.
Arguments Ret {A} a.
Arguments Exit {A} code.
Arguments Throw {A} err.
Arguments OutOfFuel {A}.

Definition M (A : Type) : Type := World -> Result A * World.

#[global] Instance M_ret : MRet M := fun A a w => (Ret a, w).
#[global] Instance M_bind : MBind M := fun A B f m w =>
  match m w with
  | (Ret a, w') => f a w'
  | (Exit code, w') => (Exit code, w')
  | (Throw err, w') => (Throw err, w')
  | (OutOfFuel, w') => (OutOfFuel, w')
  end.

Definition emit (e : Event) : M unit := fun w =>
  (Ret tt, {| apiCallsAttempted := apiCallsAttempted w; trace := trace w ++ [e] |}).

Definition console_log (p : Printed) : M unit := emit (Log p).
Definition console_error (p : Printed) : M unit := emit (Error p).
Definition process_exit {A} (code : Z) : M A := fun w => (Exit code, w).
Definition throw {A} (err : string) : M A := fun w => (Throw err, w).
Definition out_of_fuel {A} : M A := fun w => (OutOfFuel, w).

Definition get_apiCallsAttempted : M nat := fun w => (Ret (apiCallsAttempted w), w).
Definition set_apiCallsAttempted (n : nat) : M unit := fun w =>
  (Ret tt, {| apiCallsAttempted := n; trace := trace w |}).

(** [forEach] over an array, threading the accumulated [caseResults]. *)
Fixpoint forEach {A S} (f : A -> S -> M S) (l : list A) (s : S) : M S :=
  match l with
  | [] => mret s
  | x :: rest => s' ← f x s; forEach f rest s'
  end.

Definition dquote : string := String (ascii_of_nat 34) EmptyString.

(** [s.substring(start)], with a negative [start] clamped to 0. *)
Definition substring_from (start : Z) (s : string) : string :=
  let i := Z.to_nat (Z.max 0 start) in
  String.substring i (String.length s - i) s.

Definition ends_with_xml (s : string) : bool :=
  String.eqb (substring_from (Z.of_nat (String.length s) - 4) s) ".xml".

(** What [fs.statSync] reports about a path. *)
Inductive Stat : Type :=
  | IsFile
  | IsDirectory (entries : list string)
  | IsOther
  | NoEntry.

(** ** [src/core.js] *)

Module Core.
Section constructCore.

(** [TestRail i call]: what the client hands to the callback of the
    [i]-th call made in this process (counted from 0). *)
Variable TestRail : nat -> ApiCall -> JsValue.
Variable configs : Configs.
(** [HtmlEntities.decode], applied to an attribute's text or to
    [undefined] ([None]) when the attribute is missing. *)
Variable HtmlEntities_decode : option string -> string.
(** [JSON.parse]; [None] stands for the SyntaxError it throws. *)
Variable JSON_parse : string -> option JsValue.
(** The file system as [report] sees it: [fs.statSync], and the tree that
    [XmlParser] builds from the text of a file. *)
Variable statSync : string -> Stat.
Variable readXml : string -> Node.

Definition maxCallAttemptsAllowed : nat := 5.

Definition debug (message : Printed) : M unit :=
  if configs_debug configs then console_error message else mret tt.

(** A call to the client; the callback receives the response. *)
Definition call (c : ApiCall) : M JsValue := fun w =>
  (Ret (TestRail (length (api_calls (trace w))) c),
   {| apiCallsAttempted := apiCallsAttempted w; trace := trace w ++ [Call c] |}).

(** [typeof response === 'string' ? JSON.parse(response) : response] *)
Definition parse_response (response : JsValue) : M JsValue :=
  match response with
  | VStr s =>
      match JSON_parse s with
      | Some v => mret v
      | None => throw "SyntaxError"
      end
  | _ => mret response
  end.

Definition prop (v : JsValue) (key : string) : M JsValue :=
  match get_prop v key with
  | Some x => mret x
  | None => throw "TypeError"
  end.

(** [response instanceof Array && response.length] *)
Definition nonempty_array (v : JsValue) : bool :=
  match v with
  | VArr (_ :: _) => true
  | _ => false
  end.

Definition array_length (v : JsValue) : nat :=
  match v with
  | VArr items => length items
  | _ => 0%nat
  end.

Fixpoint initializeTestRun (fuel : nat)
    (projectId name suiteId description milestoneId : JsValue) : M unit :=
  match fuel with
  | O => out_of_fuel
  | S fuel' =>
      debug (PStr "Attempting to initialize test run.");;
      (if negb (truthy projectId) || negb (truthy name) then
         console_error (PStr "You must supply a projectId (-p or --projectId=) and runName (-n or --runName=).");;
         debug (PStr ("projectId: " +:+ dquote +:+ ToString projectId +:+ dquote
                        +:+ ", name: " +:+ dquote +:+ ToString name +:+ dquote));;
         process_exit 1
       else mret tt);;
      response ← call (addRun projectId suiteId name description milestoneId);
      debug (PStr "Received response from TestRail.");;
      response ← parse_response response;
      id ← prop response "id";
      if truthy id then
        console_log (PVal id);;
        debug (PVal response);;
        process_exit 0
      else
        attempted ← get_apiCallsAttempted;
        if (attempted <? maxCallAttemptsAllowed)%nat then
          set_apiCallsAttempted (S attempted);;
          debug (PStr ("Failed to initialize run. Attempt #" +:+ pretty (S attempted)));;
          initializeTestRun fuel' projectId name suiteId description milestoneId
        else
          error ← prop response "error";
          console_error (PStr ("Error initializing test run in TestRail: " +:+ ToString error));;
          debug (PVal response);;
          process_exit 1
  end.

Fixpoint closeTestRun (fuel : nat) (runId : JsValue) : M unit :=
  match fuel with
  | O => out_of_fuel
  | S fuel' =>
      debug (PStr "Attempting to close test run.");;
      (if negb (truthy runId) then
         console_error (PStr "You must supply a runId (-r or --runId=).");;
         debug (PStr ("runId: " +:+ ToString runId));;
         process_exit 1
       else mret tt);;
      response ← call (closeRun runId);
      debug (PStr "Received response from TestRail.");;
      response ← parse_response response;
      completed_on ← prop response "completed_on";
      if truthy completed_on then
        console_log (PStr ("Successfully closed test run " +:+ ToString runId +:+ "."));;
        debug (PVal response);;
        process_exit 0
      else
        attempted ← get_apiCallsAttempted;
        if (attempted <? maxCallAttemptsAllowed)%nat then
          set_apiCallsAttempted (S attempted);;
          debug (PStr ("Failed to close test run. Attempt #" +:+ pretty (S attempted)));;
          closeTestRun fuel' runId
        else
          error ← prop response "error";
          console_error (PStr ("There was an error closing the test run: " +:+ ToString error));;
          debug (PVal response);;
          process_exit 1
  end.

Fixpoint addResultsForCasesAttempt (fuel : nat) (runId : JsValue)
    (caseResults : list CaseResult) : M unit :=
  match fuel with
  | O => out_of_fuel
  | S fuel' =>
      debug (PStr "Attempting to send case results to TestRail");;
      response ← call (addResultsForCases runId caseResults);
      response ← parse_response response;
      debug (PStr "Received response from TestRail.");;
      if nonempty_array response then
        console_log (PStr ("Successfully uploaded " +:+ pretty (array_length response)
                             +:+ " test case results to TestRail."));;
        debug (PVal response);;
        process_exit 0
      else
        attempted ← get_apiCallsAttempted;
        if (attempted <? maxCallAttemptsAllowed)%nat then
          set_apiCallsAttempted (S attempted);;
          debug (PStr ("Failed to upload case runs. Attempt #" +:+ pretty (S attempted)));;
          addResultsForCasesAttempt fuel' runId caseResults
        else
          error ← prop response "error";
          console_error (PStr ("There was an error uploading test results to TestRail: "
                                 +:+ ToString error));;
          debug (PVal response);;
          debug (PCases caseResults);;
          process_exit 1
  end.

(** [_resolveCaseIdFrom] *)
Definition resolveCaseIdFromTestCase (testCase : Node) : option Z :=
  let testClass := HtmlEntities_decode (attributes testCase !! "class") in
  let testName := HtmlEntities_decode (attributes testCase !! "name") in
  let byClass :=
    match caseClassAndNameToIdMap configs with
    | Some classes =>
        match classes !! testClass with
        | Some names =>
            match names !! testName with
            | Some id => if truthy (VInt id) then Some id else None
            | None => None
            end
        | None => None
        end
    | None => None
    end in
  match byClass with
  | Some id => Some id
  | None =>
      match caseNameToIdMap configs with
      | Some names =>
          match names !! testName with
          | Some id => if truthy (VInt id) then Some id else None
          | None => None
          end
      | None => None
      end
  end.

(** [time == 0 ? 1 : time], then [Math.ceil(...) + 's'] *)
Definition elapsedOf (time : string) : string :=
  let time' :=
    match StringToNumber time with
    | Dec 0 _ => Dec 1 0
    | n => n
    end in
  NumberToString (Math_ceil time') +:+ "s".

(** The object built for a [testcase] child, before the test on its
    [case_id]. *)
Definition caseResultOf (testcase : Node) : CaseResult :=
  {| case_id := resolveCaseIdFromTestCase testcase;
     elapsed := elapsedOf <$> (attributes testcase !! "time");
     status_id := match children testcase with [] => 1 | _ :: _ => 5 end;
     comment :=
       match children testcase with
       | [] => None
       | first :: _ =>
           match attributes first !! "message" with
           | Some message =>
               if truthy (VStr message)
               then Some (HtmlEntities_decode (Some message))
               else None
           | None => None
           end
       end;
     version := None |}.

(** [if (caseResult.case_id)] *)
Definition mapped (caseResult : CaseResult) : bool :=
  match case_id caseResult with
  | Some id => truthy (VInt id)
  | None => false
  end.

(** The node as [debug] shows it once a zero [time] was overwritten. *)
Definition afterTimeFix (testcase : Node) : Node :=
  match attributes testcase !! "time" with
  | Some time =>
      match StringToNumber time with
      | Dec 0 _ =>
          MkNode (name testcase) (<["time" := "1"]> (attributes testcase))
                 (children testcase)
      | _ => testcase
      end
  | None => testcase
  end.

(** The callback of [xml.root.children.forEach] in the single-suite case. *)
Definition eachTestcase (testcase : Node) (caseResults : list CaseResult)
  : M (list CaseResult) :=
  if String.eqb (name testcase) "testcase" then
    let caseResult := caseResultOf testcase in
    if mapped caseResult then
      debug (PStr "Appending case result:");;
      debug (PCase caseResult);;
      mret (caseResults ++ [caseResult])
    else
      debug (PStr "Unable to map testCase to TestRail CaseID:");;
      debug (PNode (afterTimeFix testcase));;
      mret caseResults
  else mret caseResults.

Fixpoint parseXmlIntoCaseResults (xml : Node) (caseResults : list CaseResult)
  : M (list CaseResult) :=
  match xml with
  | MkNode rootName _ rootChildren =>
      if String.eqb rootName "testsuite" && negb (Nat.eqb (length rootChildren) 0) then
        forEach eachTestcase rootChildren caseResults
      else if String.eqb rootName "testsuites" then
        (fix eachSuite (suites : list Node) (acc : list CaseResult)
           : M (list CaseResult) :=
           match suites with
           | [] => mret acc
           | testSuite :: rest =>
               acc' ← parseXmlIntoCaseResults testSuite acc;
               eachSuite rest acc'
           end) rootChildren caseResults
      else
        console_error (PStr "Invalid xml. Expected root name testsuite");;
        debug (PNode xml);;
        process_exit 1
  end.

(** The [.xml] files selected from [fileOrDir]. *)
Definition selectFiles (fileOrDir : string) : M (list string) :=
  match statSync fileOrDir with
  | NoEntry => throw "ENOENT"
  | IsFile => mret (if ends_with_xml fileOrDir then [fileOrDir] else [])
  | IsDirectory entries =>
      mret (map (fun dirContent =>
                   fileOrDir
                     +:+ (if String.eqb
                               (substring_from (Z.of_nat (String.length fileOrDir) - 1)
                                               fileOrDir) "/"
                          then "" else "/")
                     +:+ dirContent)
                (filter (fun dirContent => ends_with_xml dirContent = true) entries))
  | IsOther => mret []
  end.

Definition reportXml (fuel : nat) (runId fileOrDir : JsValue) : M unit :=
  debug (PStr "Attempting to report runs for test cases.");;
  (if negb (truthy fileOrDir) || negb (truthy runId) then
     console_error (PStr "You must supply a file (-f or --file=) and runId (-r or --runId=).");;
     debug (PStr ("file: " +:+ dquote +:+ ToString fileOrDir +:+ dquote
                    +:+ ", runId: " +:+ dquote +:+ ToString runId +:+ dquote));;
     process_exit 1
   else mret tt);;
  files ← match fileOrDir with
          | VStr path => selectFiles path
          | _ => throw "TypeError"
          end;
  debug (PStr "Attempting to parse files:");;
  debug (PFiles files);;
  caseResults ← forEach (fun file acc => parseXmlIntoCaseResults (readXml file) acc)
                        files [];
  if negb (Nat.eqb (length caseResults) 0) then
    addResultsForCasesAttempt fuel runId caseResults
  else
    console_log (PStr "Did not parse any test XML files.").

End constructCore.
End Core.

(** ** The earlier revision of [core.js] ([unnamed/part_000])

    Its [init], [finish] and submission loop read as in [src/core.js]; only
    the body of [report] differs, and that body is what this module holds. *)

Module Part000.
Section constructCore.

Variable TestRail : nat -> ApiCall -> JsValue.
Variable configs : Configs.
Variable HtmlEntities_decode : option string -> string.
Variable JSON_parse : string -> option JsValue.
Variable statSync : string -> Stat.
Variable readXml : string -> Node.

Definition debug : Printed -> M unit := Core.debug configs.

(** [Math.ceil(testcase.attributes.time) + 's'], the attribute being
    [undefined] when it is missing. *)
Definition elapsedOf (time : option string) : string :=
  NumberToString (Math_ceil (match time with
                             | Some t => StringToNumber t
                             | None => NaN
                             end)) +:+ "s".

(** The object built and pushed for a [testcase] child, given the flat
    table. *)
Definition caseResultOf (names : gmap string Z) (testcase : Node) : CaseResult :=
  {| case_id := names !! HtmlEntities_decode (attributes testcase !! "name");
     elapsed := Some (elapsedOf (attributes testcase !! "time"));
     status_id := match children testcase with [] => 1 | _ :: _ => 5 end;
     comment :=
       match children testcase with
       | [] => None
       | first :: _ => Some (HtmlEntities_decode (attributes first !! "message"))
       end;
     version := Some "test" |}.

Definition eachTestcase (testcase : Node) (caseResults : list CaseResult)
  : M (list CaseResult) :=
  if String.eqb (name testcase) "testcase" then
    match caseNameToIdMap configs with
    | None => throw "TypeError"
    | Some names =>
        let caseResult := caseResultOf names testcase in
        debug (PStr "Appending case result:");;
        debug (PCase caseResult);;
        mret (caseResults ++ [caseResult])
    end
  else mret caseResults.

(** The callback of [fileContents.forEach]. *)
Definition eachFile (xml : Node) (caseResults : list CaseResult)
  : M (list CaseResult) :=
  (if negb (String.eqb (name xml) "testsuite") then
     console_error (PStr "Invalid xml. Expected root name testsuite");;
     debug (PNode xml);;
     process_exit 1
   else mret tt);;
  if negb (Nat.eqb (length (children xml)) 0) then
    forEach eachTestcase (children xml) caseResults
  else mret caseResults.

Definition reportXml (fuel : nat) (runId fileOrDir : JsValue) : M unit :=
  debug (PStr "Attempting to report runs for test cases.");;
  (if negb (truthy fileOrDir) || negb (truthy runId) then
     console_error (PStr "You must supply a file (-f or --file=) and runId (-r or --runId=).");;
     debug (PStr ("file: " +:+ dquote +:+ ToString fileOrDir +:+ dquote
                    +:+ ", runId: " +:+ dquote +:+ ToString runId +:+ dquote));;
     process_exit 1
   else mret tt);;
  files ← match fileOrDir with
          | VStr path => Core.selectFiles statSync path
          | _ => throw "TypeError"
          end;
  debug (PStr "Attempting to parse files:");;
  debug (PFiles files);;
  caseResults ← forEach (fun file acc => eachFile (readXml file) acc) files [];
  if negb (Nat.eqb (length caseResults) 0) then
    Core.addResultsForCasesAttempt TestRail configs JSON_parse fuel runId caseResults
  else
    console_log (PStr "Did not parse any test XML files.").

End constructCore.
End Part000.

(** ** Views used to state the properties *)

(** The world after more events happened, the counter unchanged. *)
Definition extend (w : World) (t : list Event) : World :=
  {| apiCallsAttempted := apiCallsAttempted w; trace := trace w ++ t |}.

(** The world with the counter at [n] after the further events [t]. *)
Definition after (w : World) (n : nat) (t : list Event) : World :=
  {| apiCallsAttempted := n; trace := trace w ++ t |}.




(** A decoder for the five predefined XML entities, for concrete runs;
    [undefined] decodes to the empty string. *)
Fixpoint decode_chars (fuel : nat) (l : list ascii) : list ascii :=
  match fuel with
  | O => l
  | S fuel' =>
      match l with
      | "&" :: "a" :: "m" :: "p" :: ";" :: rest => "&" :: decode_chars fuel' rest
      | "&" :: "l" :: "t" :: ";" :: rest => "<" :: decode_chars fuel' rest
      | "&" :: "g" :: "t" :: ";" :: rest => ">" :: decode_chars fuel' rest
      | "&" :: "q" :: "u" :: "o" :: "t" :: ";" :: rest =>
          ascii_of_nat 34 :: decode_chars fuel' rest
      | "&" :: "a" :: "p" :: "o" :: "s" :: ";" :: rest => "'" :: decode_chars fuel' rest
      | c :: rest => c :: decode_chars fuel' rest
      | [] => []
      end
  end%char.

Definition decode_xml (text : option string) : string :=
  match text with
  | Some s =>
      String.string_of_list_ascii
        (decode_chars (String.length s) (String.list_ascii_of_string s))
  | None => EmptyString
  end.

Definition no_json (s : string) : option JsValue := None.

Section Views.

Variable configs : Configs.
Variable HtmlEntities_decode : option string -> string.

(** The class-qualified entry for a decoded (class, name) pair, and the
    flat entry for a decoded name, as the configuration holds them. *)
Definition classEntry (testClass testName : string) : option Z :=
  classes ← caseClassAndNameToIdMap configs;
  names ← classes !! testClass;
  names !! testName.

Definition flatEntry (testName : string) : option Z :=
  names ← caseNameToIdMap configs;
  names !! testName.

Definition isTestcase (c : Node) : bool := String.eqb (name c) "testcase".

(** An entry that passes the truth test of the resolver. *)
Definition nonzero (entry : option Z) : option Z :=
  match entry with
  | Some id => if id =? 0 then None else Some id
  | None => None
  end.

(** A [testcase] child that [_resolveCaseIdFrom] maps to a case. *)
Definition resolves (child : Node) : bool :=
  String.eqb (name child) "testcase"
  && bool_decide (is_Some (Core.resolveCaseIdFromTestCase configs HtmlEntities_decode child)).

Definition unresolved (child : Node) : bool :=
  String.eqb (name child) "testcase"
  && bool_decide (Core.resolveCaseIdFromTestCase configs HtmlEntities_decode child = None).

(** What the single-suite loop appends for the children [cs]. *)
Definition suiteResults (cs : list Node) : list CaseResult :=
  map (Core.caseResultOf configs HtmlEntities_decode)
      (List.filter resolves cs).

(** The outcome of [parseXmlIntoCaseResults] as a function of the tree:
    the results appended, or [None] when the walk reaches
    [process.exit(1)]. *)
Fixpoint extract (xml : Node) : option (list CaseResult) :=
  match xml with
  | MkNode rootName _ rootChildren =>
      if String.eqb rootName "testsuite" && negb (Nat.eqb (length rootChildren) 0) then
        Some (suiteResults rootChildren)
      else if String.eqb rootName "testsuites" then
        (fix extractEach (suites : list Node) : option (list CaseResult) :=
           match suites with
           | [] => Some []
           | testSuite :: rest =>
               match extract testSuite with
               | Some rs =>
                   match extractEach rest with
                   | Some rs' => Some (rs ++ rs')
                   | None => None
                   end
               | None => None
               end
           end) rootChildren
      else None
  end.

Fixpoint extractEach (suites : list Node) : option (list CaseResult) :=
  match suites with
  | [] => Some []
  | testSuite :: rest =>
      match extract testSuite with
      | Some rs =>
          match extractEach rest with
          | Some rs' => Some (rs ++ rs')
          | None => None
          end
      | None => None
      end
  end.

(** The [testcase] entries that the walk visits. *)
Fixpoint testcases (xml : Node) : list Node :=
  match xml with
  | MkNode rootName _ rootChildren =>
      if String.eqb rootName "testsuite" then
        List.filter (fun c => String.eqb (name c) "testcase") rootChildren
      else if String.eqb rootName "testsuites" then
        (fix each (suites : list Node) : list Node :=
           match suites with
           | [] => []
           | testSuite :: rest => testcases testSuite ++ each rest
           end) rootChildren
      else []
  end.

End Views.

(** The configuration without its entries of value 0. *)
Definition dropZeros (configs : Configs) : Configs :=
  {| configs_debug := configs_debug configs;
     caseNameToIdMap :=
       filter (fun kv => kv.2 <> 0) <$> caseNameToIdMap configs;
     caseClassAndNameToIdMap :=
       fmap (M := gmap string) (filter (fun kv => kv.2 <> 0))
         <$> caseClassAndNameToIdMap configs |}.

(** A response after [typeof response === 'string' ? JSON.parse(response) :
    response]; [None] when [JSON.parse] throws. *)
Definition normalized (JSON_parse : string -> option JsValue) (response : JsValue)
  : option JsValue :=
  match response with
  | VStr s => JSON_parse s
  | _ => Some response
  end.

(** A response that the loop of the given call classifies as a failure
    (and reads without a TypeError). *)
Definition failed (JSON_parse : string -> option JsValue) (c : ApiCall)
    (response : JsValue) : bool :=
  match normalized JSON_parse response with
  | Some v =>
      match c with
      | addRun _ _ _ _ _ =>
          match get_prop v "id" with
          | Some id => negb (truthy id)
          | None => false
          end
      | closeRun _ =>
          match get_prop v "completed_on" with
          | Some completed_on => negb (truthy completed_on)
          | None => false
          end
      | addResultsForCases _ _ =>
          negb (Core.nonempty_array v) && bool_decide (is_Some (get_prop v "error"))
      end
  | None => false
  end.

Definition succeeded (JSON_parse : string -> option JsValue) (c : ApiCall)
    (response : JsValue) : bool :=
  match normalized JSON_parse response with
  | Some v =>
      match c with
      | addRun _ _ _ _ _ =>
          match get_prop v "id" with
          | Some id => truthy id
          | None => false
          end
      | closeRun _ =>
          match get_prop v "completed_on" with
          | Some completed_on => truthy completed_on
          | None => false
          end
      | addResultsForCases _ _ => Core.nonempty_array v
      end
  | None => false
  end.

(** The [error] property of a response, as the final message shows it. *)
Definition errorOf (JSON_parse : string -> option JsValue) (response : JsValue) : string :=
  match normalized JSON_parse response with
  | Some v =>
      match get_prop v "error" with
      | Some e => ToString e
      | None => EmptyString
      end
  | None => EmptyString
  end.

(** ** The scenario of the specification

    [caseClassAndNameToIdMap = {"C": {"A": 7}}], a suite holding the one
    test case [name="A" class="C" time="0"], run 10, file [suite.xml]. *)

Definition scenario_configs : Configs :=
  {| configs_debug := false;
     caseNameToIdMap := None;
     caseClassAndNameToIdMap := Some {[ "C" := {[ "A" := 7 ]} ]} |}.

Definition scenario_testcase : Node :=
  MkNode "testcase" {[ "name" := "A"; "class" := "C"; "time" := "0" ]} [].

Definition scenario_suite : Node := MkNode "testsuite" ∅ [scenario_testcase].

Definition scenario_stat (path : string) : Stat :=
  if String.eqb path "suite.xml" then IsFile else NoEntry.

Definition scenario_read (path : string) : Node := scenario_suite.

Definition fresh : World := {| apiCallsAttempted := 0; trace := [] |}.

(** A client whose every response is the failure [{error: "down"}], one
    that always accepts, and one that accepts from the fifth call on. *)
Definition always_down (i : nat) (c : ApiCall) : JsValue :=
  VObj [("error", VStr "down")].

Definition accepting (i : nat) (c : ApiCall) : JsValue :=
  match c with
  | addRun _ _ _ _ _ => VObj [("id", VInt 42)]
  | closeRun _ => VObj [("completed_on", VInt 1700000000)]
  | addResultsForCases _ rs => VArr (map (fun _ => VObj []) rs)
  end.

Definition up_on_fifth (i : nat) (c : ApiCall) : JsValue :=
  if (i <? 4)%nat then VObj [("error", VStr "down")] else accepting i c.

(** Further inputs: a class-qualified entry of value 0 beside a flat entry,
    a configuration with the flat table only, and failing test cases whose
    first child has an empty, or an encoded, [message]. *)
Definition zero_configs : Configs :=
  {| configs_debug := false;
     caseNameToIdMap := Some {[ "A" := 3 ]};
     caseClassAndNameToIdMap := Some {[ "C" := {[ "A" := 0 ]} ]} |}.

Definition flat_configs : Configs :=
  {| configs_debug := false;
     caseNameToIdMap := Some {[ "A" := 7 ]};
     caseClassAndNameToIdMap := None |}.

Definition failing_testcase (message : string) : Node :=
  MkNode "testcase" {[ "name" := "A"; "class" := "C" ]}
         [MkNode "failure" {[ "message" := message ]} []].

(** ** One turn of a retry loop

    What a loop does with the response to its call, the counter being at
    [attempted]: it goes round again, or the run is over. *)
Inductive Verdict : Type :=
  | Retry
  | Done (r : Result unit).

Definition when_failed (attempted : nat) (v : JsValue) : Verdict :=
  if (attempted <? Core.maxCallAttemptsAllowed)%nat then Retry
  else match get_prop v "error" with
       | Some _ => Done (Exit 1)
       | None => Done (Throw "TypeError")
       end.

Definition verdict (JSON_parse : string -> option JsValue) (c : ApiCall)
    (attempted : nat) (response : JsValue) : Verdict :=
  match normalized JSON_parse response with
  | None => Done (Throw "SyntaxError")
  | Some v =>
      match c with
      | addRun _ _ _ _ _ =>
          match get_prop v "id" with
          | None => Done (Throw "TypeError")
          | Some id => if truthy id then Done (Exit 0) else when_failed attempted v
          end
      | closeRun _ =>
          match get_prop v "completed_on" with
          | None => Done (Throw "TypeError")
          | Some completed_on =>
              if truthy completed_on then Done (Exit 0) else when_failed attempted v
          end
      | addResultsForCases _ _ =>
          if Core.nonempty_array v then Done (Exit 0) else when_failed attempted v
      end
  end.

(** One turn of [loop] makes the call [c] once and then does what
    [verdict] says of the response. *)
Definition turn (TestRail : nat -> ApiCall -> JsValue)
    (JSON_parse : string -> option JsValue) (loop : nat -> M unit) (c : ApiCall) : Prop :=
  forall fuel w,
    exists t,
      api_calls t = [c]
      /\ match verdict JSON_parse c (apiCallsAttempted w)
                       (TestRail (length (api_calls (trace w))) c) with
         | Retry => loop (S fuel) w = loop fuel (after w (S (apiCallsAttempted w)) t)
         | Done r => loop (S fuel) w = (r, after w (apiCallsAttempted w) t)
         end.

(** The events that print the string [s] on the error channel, and the
    events that print on the error channel at all. *)
Definition is_msg (s : string) (e : Event) : bool :=
  match e with
  | Error (PStr s') => String.eqb s' s
  | _ => false
  end.

Definition count_msg (s : string) (t : list Event) : nat :=
  length (List.filter (is_msg s) t).

Definition is_error (e : Event) : bool :=
  match e with
  | Error _ => true
  | _ => false
  end.

(** What a walk that returns has printed, [unmapped] being the number of
    unresolved entries and [appended] the number of results: error-channel
    events only, none of them without the debug flag, and with the flag one
    "Unable to map" line per unresolved entry and one "Appending" line per
    result. *)
Definition reported (configs : Configs) (unmapped appended : nat) (t : list Event) : Prop :=
  Forall (fun e => is_error e = true) t
  /\ (configs_debug configs = false -> t = [])
  /\ count_msg "Unable to map testCase to TestRail CaseID:" t
     = (if configs_debug configs then unmapped else 0%nat)
  /\ count_msg "Appending case result:" t
     = (if configs_debug configs then appended else 0%nat).

(** Clients that answer every call with [null], or with text that is not
    JSON. *)
Definition silent (i : nat) (c : ApiCall) : JsValue := VNull.

Definition garbled (i : nat) (c : ApiCall) : JsValue := VStr "<html>Bad Gateway</html>".

Definition debug_configs : Configs :=
  {| configs_debug := true;
     caseNameToIdMap := None;
     caseClassAndNameToIdMap := Some {[ "C" := {[ "A" := 7 ]} ]} |}.

(** A directory [reports] holding [a.xml] (the scenario's suite), [b.xml]
    (a suite without children) and a text file. *)
Definition reports_stat (path : string) : Stat :=
  if String.eqb path "reports" then IsDirectory ["a.xml"; "b.xml"; "notes.txt"]
  else if String.eqb path "notes.txt" then IsFile
  else NoEntry.

Definition reports_read (path : string) : Node :=
  if String.eqb path "reports/b.xml" then MkNode "testsuite" ∅ [] else scenario_suite.

(** * Properties *)

(** ** Worlds and the monad *)

Lemma extend_nil (w : World) : extend w [] = w.
Proof. destruct w; unfold extend; simpl. by rewrite app_nil_r. Qed.

Lemma extend_extend (w : World) (t1 t2 : list Event) :
  extend (extend w t1) t2 = extend w (t1 ++ t2).
Proof. unfold extend; simpl. by rewrite app_assoc. Qed.

Lemma api_calls_app (t1 t2 : list Event) :
  api_calls (t1 ++ t2) = api_calls t1 ++ api_calls t2.
Proof. apply omap_app. Qed.

Lemma emit_run (e : Event) (w : World) : emit e w = (Ret tt, extend w [e]).
Proof. reflexivity. Qed.

(** [debug] prints to the error channel or does nothing; it never calls the
    client. *)
Lemma debug_run (configs : Configs) (p : Printed) (w : World) :
  exists t, Core.debug configs p w = (Ret tt, extend w t) /\ api_calls t = [].
Proof.
  unfold Core.debug. destruct (configs_debug configs).
  - exists [Error p]. split; reflexivity.
  - exists []. rewrite extend_nil. split; reflexivity.
Qed.

(** Induction on trees, the hypothesis reaching every child. *)
Lemma Node_forall_ind (P : Node -> Prop) :
  (forall n a cs, Forall P cs -> P (MkNode n a cs)) -> forall xml, P xml.
Proof.
  intros step. fix IH 1. intros [n a cs]. apply step.
  induction cs as [|c cs IHcs]; constructor; [apply IH | exact IHcs].
Qed.

Section Extraction.

Variable configs : Configs.
Variable HtmlEntities_decode : option string -> string.

Abbreviation resolveCaseId := (Core.resolveCaseIdFromTestCase configs HtmlEntities_decode).
Abbreviation caseResultOf := (Core.caseResultOf configs HtmlEntities_decode).
Abbreviation eachTestcase := (Core.eachTestcase configs HtmlEntities_decode).
Abbreviation parseXml := (Core.parseXmlIntoCaseResults configs HtmlEntities_decode).

(** [_resolveCaseIdFrom] returns [null] or a non-zero identifier. *)
Lemma resolve_nonzero (testCase : Node) (id : Z) :
  resolveCaseId testCase = Some id -> id <> 0.
Proof.
  unfold Core.resolveCaseIdFromTestCase. intros H.
  repeat case_match; simplify_eq; intros ->; discriminate.
Qed.

Lemma mapped_resolves (testcase : Node) :
  Core.mapped (caseResultOf testcase) = bool_decide (is_Some (resolveCaseId testcase)).
Proof.
  unfold Core.mapped; simpl. destruct (resolveCaseId testcase) as [id|] eqn:E.
  - apply resolve_nonzero in E. simpl. destruct id; try lia; reflexivity.
  - reflexivity.
Qed.

Lemma suiteResults_cons (c : Node) (cs : list Node) :
  suiteResults configs HtmlEntities_decode (c :: cs) =
  (if resolves configs HtmlEntities_decode c then [caseResultOf c] else [])
    ++ suiteResults configs HtmlEntities_decode cs.
Proof. unfold suiteResults; simpl. by destruct (resolves _ _ c). Qed.

(** One child of a suite: the result is appended exactly when the child is
    a [testcase] that resolves; the walk goes on either way. *)
Lemma eachTestcase_run (c : Node) (acc : list CaseResult) (w : World) :
  exists t,
    eachTestcase c acc w =
      (Ret (acc ++ if resolves configs HtmlEntities_decode c then [caseResultOf c] else []),
       extend w t)
    /\ api_calls t = [].
Proof.
  unfold Core.eachTestcase, resolves. rewrite <- mapped_resolves.
  destruct (String.eqb (name c) "testcase"); simpl.
  - destruct (Core.mapped (caseResultOf c)).
    + destruct (debug_run configs (PStr "Appending case result:") w) as (t1 & E1 & C1).
      destruct (debug_run configs (PCase (caseResultOf c)) (extend w t1)) as (t2 & E2 & C2).
      exists (t1 ++ t2). unfold mbind, M_bind. rewrite E1, E2, extend_extend.
      split; [reflexivity | by rewrite api_calls_app, C1, C2].
    + destruct (debug_run configs (PStr "Unable to map testCase to TestRail CaseID:") w)
        as (t1 & E1 & C1).
      destruct (debug_run configs (PNode (Core.afterTimeFix c)) (extend w t1))
        as (t2 & E2 & C2).
      exists (t1 ++ t2). unfold mbind, M_bind. rewrite E1, E2, extend_extend, app_nil_r.
      split; [reflexivity | by rewrite api_calls_app, C1, C2].
  - exists []. rewrite extend_nil, app_nil_r. split; reflexivity.
Qed.

Lemma forEach_eachTestcase_run (cs : list Node) (acc : list CaseResult) (w : World) :
  exists t,
    forEach eachTestcase cs acc w =
      (Ret (acc ++ suiteResults configs HtmlEntities_decode cs), extend w t)
    /\ api_calls t = [].
Proof.
  revert acc w. induction cs as [|c cs IH]; intros acc w.
  - exists []. rewrite extend_nil. unfold suiteResults; simpl. rewrite app_nil_r.
    split; reflexivity.
  - destruct (eachTestcase_run c acc w) as (t1 & E1 & C1).
    destruct (IH (acc ++ if resolves configs HtmlEntities_decode c
                         then [caseResultOf c] else []) (extend w t1))
      as (t2 & E2 & C2).
    exists (t1 ++ t2). simpl. unfold mbind, M_bind. rewrite E1, E2.
    rewrite extend_extend, suiteResults_cons, app_assoc.
    split; [reflexivity | by rewrite api_calls_app, C1, C2].
Qed.

(** The invalid-root branch. *)
Lemma invalid_run (xml : Node) (w : World) :
  exists t,
    (console_error (PStr "Invalid xml. Expected root name testsuite");;
     Core.debug configs (PNode xml);;
     process_exit 1) w = (@Exit (list CaseResult) 1, extend w t)
    /\ api_calls t = []
    /\ Error (PStr "Invalid xml. Expected root name testsuite") ∈ t.
Proof.
  destruct (debug_run configs (PNode xml)
              (extend w [Error (PStr "Invalid xml. Expected root name testsuite")]))
    as (t & E & C).
  exists (Error (PStr "Invalid xml. Expected root name testsuite") :: t).
  unfold mbind, M_bind, console_error. rewrite emit_run, E, extend_extend.
  split; [reflexivity | split; [exact C | left]].
Qed.

Lemma extract_testsuites (a : gmap string string) (cs : list Node) :
  extract configs HtmlEntities_decode (MkNode "testsuites" a cs) =
  extractEach configs HtmlEntities_decode cs.
Proof. reflexivity. Qed.

(** The multi-suite branch is a [forEach] of the walk over the children. *)
Lemma parseXml_testsuites (a : gmap string string) (cs : list Node)
    (acc : list CaseResult) (w : World) :
  parseXml (MkNode "testsuites" a cs) acc w = forEach parseXml cs acc w.
Proof.
  simpl. revert acc w. induction cs as [|c cs IH]; intros acc w; [reflexivity|].
  simpl. unfold mbind, M_bind.
  destruct (parseXml c acc w) as [[acc'| | |] w']; [apply IH | reflexivity..].
Qed.

(** The walk computes [extract]: it returns the accumulated results
    followed by the extracted ones, or exits with code 1, and it calls the
    client in neither case. *)
Lemma parseXml_run (xml : Node) :
  forall (acc : list CaseResult) (w : World),
  exists t,
    parseXml xml acc w =
      (match extract configs HtmlEntities_decode xml with
       | Some rs => Ret (acc ++ rs)
       | None => Exit 1
       end, extend w t)
    /\ api_calls t = [].
Proof.
  induction xml as [n a cs IH] using Node_forall_ind. intros acc w.
  destruct (String.eqb n "testsuite" && negb (Nat.eqb (length cs) 0)) eqn:Hsuite.
  { simpl. rewrite Hsuite. apply forEach_eachTestcase_run. }
  destruct (String.eqb n "testsuites") eqn:Hsuites.
  2:{ simpl. rewrite Hsuite, Hsuites.
      destruct (invalid_run (MkNode n a cs) w) as (t & E & C & _). by exists t. }
  apply String.eqb_eq in Hsuites as ->.
  rewrite parseXml_testsuites, extract_testsuites. clear Hsuite a.
  revert acc w. induction IH as [|c cs Hc _ IHcs]; intros acc w.
  - exists []. simpl. rewrite extend_nil, app_nil_r. split; reflexivity.
  - destruct (Hc acc w) as (t1 & E1 & C1).
    simpl. unfold mbind, M_bind. rewrite E1.
    destruct (extract configs HtmlEntities_decode c) as [rs|]; [|by exists t1].
    destruct (IHcs (acc ++ rs) (extend w t1)) as (t2 & E2 & C2).
    exists (t1 ++ t2). rewrite E2, extend_extend.
    split; [|by rewrite api_calls_app, C1, C2].
    destruct (extractEach configs HtmlEntities_decode cs);
      [by rewrite app_assoc | reflexivity].
Qed.

End Extraction.

(** ** The walk over the tree *)

Section Walk.

Variable configs : Configs.
Variable HtmlEntities_decode : option string -> string.

Abbreviation resolveCaseId' := (Core.resolveCaseIdFromTestCase configs HtmlEntities_decode).
Abbreviation caseResultOf' := (Core.caseResultOf configs HtmlEntities_decode).
Abbreviation parseXml' := (Core.parseXmlIntoCaseResults configs HtmlEntities_decode).
Abbreviation resolves' := (resolves configs HtmlEntities_decode).
Abbreviation unresolved' := (unresolved configs HtmlEntities_decode).
Abbreviation extract' := (extract configs HtmlEntities_decode).

(** A root that is neither a [testsuite] nor a [testsuites] ends the run
    with exit code 1. *)
Lemma invalid_root_aborts (n : string) (a : gmap string string) (cs : list Node)
    (acc : list CaseResult) (w : World) :
  n <> "testsuite" -> n <> "testsuites" ->
  exists t,
    parseXml' (MkNode n a cs) acc w = (Exit 1, extend w t)
    /\ Error (PStr "Invalid xml. Expected root name testsuite") ∈ t.
Proof.
  intros H1 H2. simpl.
  apply String.eqb_neq in H1, H2. rewrite H1, H2. simpl.
  destruct (invalid_run configs (MkNode n a cs) w) as (t & E & _ & Hin). by exists t.
Qed.

(** C3. A root tagged [testsuite] that has no children takes the
    invalid-root branch of [src/core.js]: the run prints "Invalid xml.
    Expected root name testsuite" and exits with code 1, although the root
    is a [testsuite].  The earlier revision, which tests the tag and the
    children separately, returns normally on the same root. *)
Theorem empty_testsuite_aborts (a : gmap string string)
    (acc : list CaseResult) (w : World) :
  (exists t,
     parseXml' (MkNode "testsuite" a []) acc w = (Exit 1, extend w t)
     /\ Error (PStr "Invalid xml. Expected root name testsuite") ∈ t
     /\ api_calls t = [])
  /\ Part000.eachFile configs HtmlEntities_decode (MkNode "testsuite" a []) acc w
     = (Ret acc, w).
Proof.
  split; [|reflexivity].
  destruct (invalid_run configs (MkNode "testsuite" a []) w) as (t & E & C & Hin).
  exists t. simpl. by rewrite E.
Qed.

Lemma filter_resolves_testcase (cs : list Node) :
  List.filter resolves' (List.filter (fun c => String.eqb (name c) "testcase") cs)
  = List.filter resolves' cs.
Proof.
  induction cs as [|c cs IH]; [reflexivity|]. simpl.
  destruct (String.eqb (name c) "testcase") eqn:E.
  - simpl. by rewrite IH.
  - unfold resolves at 2. by rewrite E.
Qed.

Lemma extract_results (xml : Node) (rs : list CaseResult) :
  extract' xml = Some rs ->
  rs = map caseResultOf' (List.filter resolves' (testcases xml)).
Proof.
  revert rs. induction xml as [n a cs IH] using Node_forall_ind. intros rs.
  simpl. destruct (String.eqb n "testsuite") eqn:Hn; simpl.
  - destruct (negb (Nat.eqb (length cs) 0)); simpl.
    + intros [= <-]. unfold suiteResults. by rewrite filter_resolves_testcase.
    + apply String.eqb_eq in Hn as ->. simpl. discriminate.
  - destruct (String.eqb n "testsuites"); [|discriminate].
    revert rs. induction IH as [|c cs Hc _ IHcs]; intros rs.
    + by intros [= <-].
    + destruct (extract' c) as [r1|]; [|discriminate].
      match goal with |- context [match ?x with _ => _ end] => destruct x as [r2|] end;
        [|discriminate].
      intros [= <-]. rewrite List.filter_app, map_app.
      by rewrite <- (Hc r1 eq_refl), <- (IHcs r2 eq_refl).
Qed.

Lemma resolved_or_unresolved (cs : list Node) :
  (length (List.filter resolves' cs) + length (List.filter unresolved' cs))%nat
  = length (List.filter (fun c => String.eqb (name c) "testcase") cs).
Proof.
  induction cs as [|c cs IH]; [reflexivity|]. simpl.
  unfold resolves at 1, unresolved at 1.
  destruct (String.eqb (name c) "testcase"); simpl; [|exact IH].
  destruct (resolveCaseId' c); simpl; lia.
Qed.




Lemma extractEach_Forall2 (cs : list Node) (rss : list (list CaseResult)) :
  Forall2 (fun c rs => extract' c = Some rs) cs rss ->
  extractEach configs HtmlEntities_decode cs = Some (concat rss).
Proof.
  induction 1 as [|c rs cs rss Hc _ IH]; [reflexivity|].
  simpl. by rewrite Hc, IH.
Qed.

(** C8. A [testsuites] root runs the walk on each child in turn: when the
    children yield [rss], the root yields their concatenation in document
    order; two suites of one passing, resolving test case each yield those
    two results in order; a [testsuites] root without children yields
    nothing and no error; inside a suite a child that is not tagged
    [testcase] is passed over. *)
Theorem testsuites_traversal (a : gmap string string) :
  (forall cs acc w,
     parseXml' (MkNode "testsuites" a cs) acc w = forEach parseXml' cs acc w)
  /\ (forall cs rss acc w,
        Forall2 (fun c rs => extract' c = Some rs) cs rss ->
        exists t,
          parseXml' (MkNode "testsuites" a cs) acc w = (Ret (acc ++ concat rss), extend w t)
          /\ api_calls t = [])
  /\ (forall a1 a2 tc1 tc2 w,
        resolves' tc1 = true -> children tc1 = [] ->
        resolves' tc2 = true -> children tc2 = [] ->
        exists t,
          parseXml' (MkNode "testsuites" a
                       [MkNode "testsuite" a1 [tc1]; MkNode "testsuite" a2 [tc2]]) [] w
            = (Ret [caseResultOf' tc1; caseResultOf' tc2], extend w t)
          /\ status_id (caseResultOf' tc1) = 1 /\ status_id (caseResultOf' tc2) = 1)
  /\ (forall acc w, parseXml' (MkNode "testsuites" a []) acc w = (Ret acc, w))
  /\ (forall c acc w,
        name c <> "testcase" ->
        Core.eachTestcase configs HtmlEntities_decode c acc w = (Ret acc, w)).
Proof.
  split; [intros; apply parseXml_testsuites|].
  split.
  { intros cs rss acc w H.
    destruct (parseXml_run configs HtmlEntities_decode (MkNode "testsuites" a cs) acc w)
      as (t & E & C).
    rewrite extract_testsuites, (extractEach_Forall2 _ _ H) in E. by exists t. }
  split.
  { intros a1 a2 tc1 tc2 w R1 K1 R2 K2.
    destruct (parseXml_run configs HtmlEntities_decode
                (MkNode "testsuites" a
                   [MkNode "testsuite" a1 [tc1]; MkNode "testsuite" a2 [tc2]]) [] w)
      as (t & E & C).
    simpl in E. unfold suiteResults in E. simpl in E. rewrite R1, R2 in E. simpl in E.
    exists t. split; [exact E|]. simpl. by rewrite K1, K2. }
  split; [reflexivity|].
  intros c acc w Hc. unfold Core.eachTestcase.
  apply String.eqb_neq in Hc. by rewrite Hc.
Qed.

End Walk.


Lemma testsuites_traversal_witness :
  exists t,
    Core.parseXmlIntoCaseResults scenario_configs decode_xml
      (MkNode "testsuites" ∅ [scenario_suite; scenario_suite]) [] fresh
      = (Ret [Core.caseResultOf scenario_configs decode_xml scenario_testcase;
              Core.caseResultOf scenario_configs decode_xml scenario_testcase],
         extend fresh t).
Proof.
  destruct (proj1 (proj2 (proj2 (testsuites_traversal scenario_configs decode_xml ∅)))
              ∅ ∅ scenario_testcase scenario_testcase fresh
              eq_refl eq_refl eq_refl eq_refl) as (t & E & _).
  exists t. exact E.
Defined.

(** ** Decimal numerals read as numbers *)










(** ** The reduction of one test case *)

Section Reduction.

Variable configs : Configs.
Variable HtmlEntities_decode : option string -> string.

Abbreviation resolveCaseId'' := (Core.resolveCaseIdFromTestCase configs HtmlEntities_decode).
Abbreviation caseResultOf'' := (Core.caseResultOf configs HtmlEntities_decode).




(** C7 (as amended). A test case without children has [status_id] 1 and no
    [comment]; with children it has [status_id] 5, and its [comment] is the
    decoded [message] of the first child when that attribute is present and
    not empty, and is left out when the attribute is absent or empty; the
    children after the first play no part. *)
Theorem status_and_comment (testcase : Node) :
  (children testcase = [] ->
   status_id (caseResultOf'' testcase) = 1 /\ comment (caseResultOf'' testcase) = None)
  /\ (forall first rest,
        children testcase = first :: rest ->
        status_id (caseResultOf'' testcase) = 5
        /\ (forall message,
              attributes first !! "message" = Some message -> message <> EmptyString ->
              comment (caseResultOf'' testcase)
              = Some (HtmlEntities_decode (Some message)))
        /\ (attributes first !! "message" = None
            \/ attributes first !! "message" = Some EmptyString ->
            comment (caseResultOf'' testcase) = None)
        /\ comment (caseResultOf'' testcase)
           = comment (caseResultOf''
                        (MkNode (name testcase) (attributes testcase) [first]))).
Proof.
  unfold Core.caseResultOf; simpl. split.
  - by intros ->.
  - intros first rest ->. simpl. split; [reflexivity|]. split; [|split].
    + intros message -> Hne. destruct message; [done | reflexivity].
    + by intros [-> | ->].
    + reflexivity.
Qed.


End Reduction.

(** ** Identifiers of value 0 *)

Section Zero.

Variable configs : Configs.
Variable HtmlEntities_decode : option string -> string.

Lemma resolve_entries (cfg : Configs) (testCase : Node) :
  Core.resolveCaseIdFromTestCase cfg HtmlEntities_decode testCase
  = match nonzero (classEntry cfg (HtmlEntities_decode (attributes testCase !! "class"))
                              (HtmlEntities_decode (attributes testCase !! "name"))) with
    | Some id => Some id
    | None => nonzero (flatEntry cfg (HtmlEntities_decode (attributes testCase !! "name")))
    end.
Proof.
  unfold Core.resolveCaseIdFromTestCase, classEntry, flatEntry, nonzero.
  destruct (caseClassAndNameToIdMap cfg) as [classes|]; simpl.
  - destruct (classes !! _) as [names|]; simpl.
    + destruct (names !! _) as [id|]; simpl.
      * destruct (id =? 0); simpl; [|reflexivity].
        destruct (caseNameToIdMap cfg) as [flat|]; simpl; [|reflexivity].
        destruct (flat !! _) as [id'|]; [by destruct (id' =? 0) | reflexivity].
      * destruct (caseNameToIdMap cfg) as [flat|]; simpl; [|reflexivity].
        destruct (flat !! _) as [id'|]; [by destruct (id' =? 0) | reflexivity].
    + destruct (caseNameToIdMap cfg) as [flat|]; simpl; [|reflexivity].
      destruct (flat !! _) as [id'|]; [by destruct (id' =? 0) | reflexivity].
  - destruct (caseNameToIdMap cfg) as [flat|]; simpl; [|reflexivity].
    destruct (flat !! _) as [id'|]; [by destruct (id' =? 0) | reflexivity].
Qed.

Lemma lookup_nonzero (names : gmap string Z) (key : string) :
  nonzero (filter (fun kv : string * Z => kv.2 <> 0) names !! key)
  = nonzero (names !! key).
Proof.
  rewrite map_lookup_filter. destruct (names !! key) as [id|]; simpl; [|reflexivity].
  case_guard as Hid; simpl in *; [reflexivity|].
  assert (id = 0) as -> by lia. reflexivity.
Qed.

Lemma classEntry_dropZeros (testClass testName : string) :
  nonzero (classEntry (dropZeros configs) testClass testName)
  = nonzero (classEntry configs testClass testName).
Proof.
  unfold classEntry, dropZeros; simpl.
  destruct (caseClassAndNameToIdMap configs) as [classes|]; simpl; [|reflexivity].
  rewrite lookup_fmap. destruct (classes !! testClass) as [names|]; simpl; [|reflexivity].
  apply lookup_nonzero.
Qed.

Lemma flatEntry_dropZeros (testName : string) :
  nonzero (flatEntry (dropZeros configs) testName) = nonzero (flatEntry configs testName).
Proof.
  unfold flatEntry, dropZeros; simpl.
  destruct (caseNameToIdMap configs) as [names|]; simpl; [|reflexivity].
  apply lookup_nonzero.
Qed.

Lemma resolve_dropZeros (testCase : Node) :
  Core.resolveCaseIdFromTestCase (dropZeros configs) HtmlEntities_decode testCase
  = Core.resolveCaseIdFromTestCase configs HtmlEntities_decode testCase.
Proof. by rewrite !resolve_entries, classEntry_dropZeros, flatEntry_dropZeros. Qed.

Lemma caseResultOf_dropZeros (testcase : Node) :
  Core.caseResultOf (dropZeros configs) HtmlEntities_decode testcase
  = Core.caseResultOf configs HtmlEntities_decode testcase.
Proof. unfold Core.caseResultOf. by rewrite resolve_dropZeros. Qed.

Lemma eachTestcase_dropZeros (c : Node) (acc : list CaseResult) (w : World) :
  Core.eachTestcase (dropZeros configs) HtmlEntities_decode c acc w
  = Core.eachTestcase configs HtmlEntities_decode c acc w.
Proof. unfold Core.eachTestcase. by rewrite caseResultOf_dropZeros. Qed.

Lemma forEach_eachTestcase_dropZeros (cs : list Node) (acc : list CaseResult) (w : World) :
  forEach (Core.eachTestcase (dropZeros configs) HtmlEntities_decode) cs acc w
  = forEach (Core.eachTestcase configs HtmlEntities_decode) cs acc w.
Proof.
  revert acc w. induction cs as [|c cs IH]; intros acc w; [reflexivity|].
  simpl. unfold mbind, M_bind. rewrite eachTestcase_dropZeros.
  destruct (Core.eachTestcase configs HtmlEntities_decode c acc w) as [[acc'| | |] w'];
    [apply IH | reflexivity..].
Qed.

Lemma parseXml_dropZeros (xml : Node) :
  forall acc w,
    Core.parseXmlIntoCaseResults (dropZeros configs) HtmlEntities_decode xml acc w
    = Core.parseXmlIntoCaseResults configs HtmlEntities_decode xml acc w.
Proof.
  induction xml as [n a cs IH] using Node_forall_ind. intros acc w.
  destruct (String.eqb n "testsuite" && negb (Nat.eqb (length cs) 0)) eqn:Hsuite.
  { simpl. rewrite Hsuite. apply forEach_eachTestcase_dropZeros. }
  destruct (String.eqb n "testsuites") eqn:Hsuites.
  2:{ simpl. by rewrite Hsuite, Hsuites. }
  apply String.eqb_eq in Hsuites as ->. rewrite !parseXml_testsuites.
  clear Hsuite. revert acc w. induction IH as [|c cs Hc _ IHcs]; intros acc w;
    [reflexivity|].
  simpl. unfold mbind, M_bind. rewrite Hc.
  destruct (Core.parseXmlIntoCaseResults configs HtmlEntities_decode c acc w)
    as [[acc'| | |] w']; [apply IHcs | reflexivity..].
Qed.

(** C10. An identifier of value 0 counts as no identifier.  With a
    class-qualified entry of 0 the resolver goes on to the flat table, and
    answers [null] when the flat entry is 0 or missing; it never answers 0,
    and a result whose [case_id] is 0 fails the test that guards the push;
    resolver and walk behave under a configuration exactly as under the
    same configuration with its entries of value 0 removed, so the test
    case of such an entry is left out of the batch, and the walk goes on. *)
Theorem zero_identifier_is_unresolved (testCase : Node) :
  let testClass := HtmlEntities_decode (attributes testCase !! "class") in
  let testName := HtmlEntities_decode (attributes testCase !! "name") in
  (classEntry configs testClass testName = Some 0 ->
   Core.resolveCaseIdFromTestCase configs HtmlEntities_decode testCase
   = match flatEntry configs testName with
     | Some id => if id =? 0 then None else Some id
     | None => None
     end)
  /\ (classEntry configs testClass testName = Some 0 ->
      flatEntry configs testName = Some 0 \/ flatEntry configs testName = None ->
      Core.resolveCaseIdFromTestCase configs HtmlEntities_decode testCase = None)
  /\ Core.resolveCaseIdFromTestCase configs HtmlEntities_decode testCase <> Some 0
  /\ (forall caseResult, case_id caseResult = Some 0 -> Core.mapped caseResult = false)
  /\ Core.resolveCaseIdFromTestCase (dropZeros configs) HtmlEntities_decode testCase
     = Core.resolveCaseIdFromTestCase configs HtmlEntities_decode testCase
  /\ (forall xml acc w,
        Core.parseXmlIntoCaseResults (dropZeros configs) HtmlEntities_decode xml acc w
        = Core.parseXmlIntoCaseResults configs HtmlEntities_decode xml acc w)
  /\ (forall acc w,
        name testCase = "testcase" ->
        Core.resolveCaseIdFromTestCase configs HtmlEntities_decode testCase = None ->
        exists t,
          Core.eachTestcase configs HtmlEntities_decode testCase acc w
          = (Ret acc, extend w t) /\ api_calls t = []).
Proof.
  intros testClass testName.
  assert (Hfall : classEntry configs testClass testName = Some 0 ->
    Core.resolveCaseIdFromTestCase configs HtmlEntities_decode testCase
    = match flatEntry configs testName with
      | Some id => if id =? 0 then None else Some id
      | None => None
      end).
  { intros Hclass. rewrite resolve_entries. fold testClass testName.
    by rewrite Hclass. }
  split; [exact Hfall|]. split.
  { intros Hclass Hflat. rewrite (Hfall Hclass). by destruct Hflat as [-> | ->]. }
  split.
  { intros H. by apply resolve_nonzero in H. }
  split.
  { intros caseResult H. unfold Core.mapped. by rewrite H. }
  split; [apply resolve_dropZeros|]. split; [intros; apply parseXml_dropZeros|].
  intros acc w Hname Hnone.
  destruct (eachTestcase_run configs HtmlEntities_decode testCase acc w) as (t & E & C).
  exists t. split; [|exact C]. rewrite E. unfold resolves. rewrite Hnone.
  rewrite andb_comm. simpl. by rewrite app_nil_r.
Qed.

End Zero.



Lemma zero_identifier_is_unresolved_witness :
  Core.resolveCaseIdFromTestCase zero_configs decode_xml scenario_testcase = Some 3.
Proof.
  exact (proj1 (zero_identifier_is_unresolved zero_configs decode_xml scenario_testcase)
           eq_refl).
Defined.


Lemma status_and_comment_witness :
  comment (Core.caseResultOf scenario_configs decode_xml
             (failing_testcase "Oops &amp; fail"))
  = Some "Oops & fail".
Proof.
  exact (proj1 (proj2 (proj2 (status_and_comment scenario_configs decode_xml
                                (failing_testcase "Oops &amp; fail"))
                         _ _ eq_refl))
           "Oops &amp; fail" eq_refl ltac:(discriminate)).
Defined.

(** C7, as stated, fails: the first child carries [message=""], the
    attribute is present, and the result has no [comment]. *)
Lemma comment_omitted_for_empty_message :
  (exists first rest,
     children (failing_testcase "") = first :: rest
     /\ attributes first !! "message" = Some EmptyString)
  /\ comment (Core.caseResultOf scenario_configs decode_xml (failing_testcase "")) = None
  /\ comment (Core.caseResultOf scenario_configs decode_xml (failing_testcase ""))
     <> Some (decode_xml (Some EmptyString)).
Proof.
  split; [eexists _, _; split; reflexivity|]. split; [reflexivity | discriminate].
Qed.

(** ** The [version] field *)

Section Version.

Variable configs : Configs.
Variable HtmlEntities_decode : option string -> string.

Lemma Part000_forEach_run (names : gmap string Z) (cs : list Node)
    (acc : list CaseResult) (w : World) :
  caseNameToIdMap configs = Some names ->
  exists t,
    forEach (Part000.eachTestcase configs HtmlEntities_decode) cs acc w
    = (Ret (acc ++ map (Part000.caseResultOf HtmlEntities_decode names)
                       (List.filter isTestcase cs)), extend w t)
    /\ api_calls t = [].
Proof.
  intros Hnames. revert acc w. induction cs as [|c cs IH]; intros acc w.
  - exists []. simpl. rewrite extend_nil, app_nil_r. split; reflexivity.
  - simpl. unfold mbind, M_bind, Part000.eachTestcase at 1, isTestcase at 1.
    destruct (String.eqb (name c) "testcase").
    + rewrite Hnames. unfold Part000.debug, mbind, M_bind.
      destruct (debug_run configs (PStr "Appending case result:") w) as (t1 & E1 & C1).
      destruct (debug_run configs
                  (PCase (Part000.caseResultOf HtmlEntities_decode names c))
                  (extend w t1)) as (t2 & E2 & C2).
      rewrite E1, E2.
      destruct (IH (acc ++ [Part000.caseResultOf HtmlEntities_decode names c])
                   (extend (extend w t1) t2)) as (t3 & E3 & C3).
      exists (t1 ++ t2 ++ t3). unfold mret, M_ret. rewrite E3, !extend_extend.
      split; [by rewrite <- app_assoc | by rewrite !api_calls_app, C1, C2, C3].
    + apply IH.
Qed.

Lemma extract_version (xml : Node) (rs : list CaseResult) :
  extract configs HtmlEntities_decode xml = Some rs ->
  Forall (fun r => version r = None) rs.
Proof.
  intros H. apply extract_results in H as ->.
  apply Forall_map. apply Forall_forall. intros c _. reflexivity.
Qed.

(** C2 (as amended). The earlier revision sets [version] to ["test"] on
    every result it pushes, for every suite and flat table.  [src/core.js]
    sets no [version]: none of the results of a walk carries the field, and
    for the scenario the walk yields exactly the one result
    [{case_id: 7, elapsed: "1s", status_id: 1}]. *)
Theorem version_field :
  (forall names xml acc w,
     caseNameToIdMap configs = Some names ->
     name xml = "testsuite" ->
     exists new t,
       Part000.eachFile configs HtmlEntities_decode xml acc w
       = (Ret (acc ++ new), extend w t)
       /\ new = map (Part000.caseResultOf HtmlEntities_decode names)
                    (List.filter isTestcase (children xml))
       /\ Forall (fun r => version r = Some "test") new)
  /\ (forall xml rs acc w,
        extract configs HtmlEntities_decode xml = Some rs ->
        (exists t,
           Core.parseXmlIntoCaseResults configs HtmlEntities_decode xml acc w
           = (Ret (acc ++ rs), extend w t))
        /\ Forall (fun r => version r = None) rs)
  /\ Core.parseXmlIntoCaseResults scenario_configs decode_xml scenario_suite [] fresh
     = (Ret [{| case_id := Some 7; elapsed := Some "1s"; status_id := 1;
                comment := None; version := None |}], fresh).
Proof.
  split; [|split; [|reflexivity]].
  - intros names xml acc w Hnames Hroot.
    destruct (Part000_forEach_run names (children xml) acc w Hnames) as (t & E & C).
    eexists _, t. split; [|split; [reflexivity|]].
    + unfold Part000.eachFile. rewrite Hroot. simpl. unfold mbind, M_bind. simpl.
      destruct (children xml) as [|c cs] eqn:Hcs; [|exact E].
      exact E.
    + apply Forall_map. apply Forall_forall. intros c _. reflexivity.
  - intros xml rs acc w Hrs. split; [|by eapply extract_version].
    destruct (parseXml_run configs HtmlEntities_decode xml acc w) as (t & E & _).
    rewrite Hrs in E. by exists t.
Qed.

End Version.

Lemma version_field_witness :
  exists new t,
    Part000.eachFile flat_configs decode_xml scenario_suite [] fresh
    = (Ret ([] ++ new), extend fresh t)
    /\ Forall (fun r => version r = Some "test") new.
Proof.
  destruct (proj1 (version_field flat_configs decode_xml)
              {[ "A" := 7 ]} scenario_suite [] fresh eq_refl eq_refl)
    as (new & t & E & _ & V).
  exists new, t. split; [exact E | exact V].
Defined.

(** C2, as stated, fails: on the scenario [report] of [src/core.js] submits
    the one result without a [version] field.  The earlier revision, which
    has the field, reads the flat table only: under the scenario's
    configuration it stops with a TypeError, and with the entry moved to the
    flat table it reports [elapsed] as ["0s"]. *)
Lemma scenario_result_has_no_version :
  (exists w,
     Core.reportXml accepting scenario_configs decode_xml no_json
       scenario_stat scenario_read 7 (VInt 10) (VStr "suite.xml") fresh = (Exit 0, w)
     /\ api_calls (trace w)
        = [addResultsForCases (VInt 10)
             [{| case_id := Some 7; elapsed := Some "1s"; status_id := 1;
                 comment := None; version := None |}]])
  /\ {| case_id := Some 7; elapsed := Some "1s"; status_id := 1;
        comment := None; version := None |}
     <> {| case_id := Some 7; elapsed := Some "1s"; status_id := 1;
           comment := None; version := Some "test" |}
  /\ fst (Part000.reportXml accepting scenario_configs decode_xml no_json
            scenario_stat scenario_read 7 (VInt 10) (VStr "suite.xml") fresh)
     = Throw "TypeError"
  /\ Part000.eachFile flat_configs decode_xml scenario_suite [] fresh
     = (Ret [{| case_id := Some 7; elapsed := Some "0s"; status_id := 1;
                comment := None; version := Some "test" |}], fresh).
Proof.
  split; [eexists; split; reflexivity|].
  split; [discriminate|]. split; reflexivity.
Qed.

(** ** The retry loops *)

Ltac run_monad :=
  unfold mbind, M_bind, mret, M_ret, console_log, console_error, emit, process_exit,
    throw, get_apiCallsAttempted, set_apiCallsAttempted, Core.call, Core.prop; simpl;
  rewrite ?api_calls_app; simpl; rewrite ?app_nil_r.

Ltac close_run :=
  eexists; split; [|unfold after, extend; simpl; rewrite <- ?app_assoc; reflexivity];
  simpl; try reflexivity.

Lemma after_after (w : World) (n m : nat) (t1 t2 : list Event) :
  after (after w n t1) m t2 = after w m (t1 ++ t2).
Proof. unfold after; simpl. by rewrite app_assoc. Qed.

Lemma after_nil (w : World) : after w (apiCallsAttempted w) [] = w.
Proof. destruct w; unfold after; simpl. by rewrite app_nil_r. Qed.

Section Steps.

Variable TestRail : nat -> ApiCall -> JsValue.
Variable configs : Configs.
Variable JSON_parse : string -> option JsValue.

Lemma parse_response_run (response : JsValue) (w : World) :
  Core.parse_response JSON_parse response w
  = match normalized JSON_parse response with
    | Some v => (Ret v, w)
    | None => (Throw "SyntaxError", w)
    end.
Proof.
  destruct response; try reflexivity. simpl. unfold Core.parse_response.
  by destruct (JSON_parse s).
Qed.

Lemma failed_reads_error (c : ApiCall) (response v : JsValue) :
  failed JSON_parse c response = true ->
  normalized JSON_parse response = Some v ->
  exists e, get_prop v "error" = Some e.
Proof.
  unfold failed. intros H Hv. rewrite Hv in H.
  destruct c, v; simpl in *; try discriminate; eauto.
Qed.

Section Init.

Variables projectId name suiteId description milestoneId : JsValue.
Hypothesis projectId_given : truthy projectId = true.
Hypothesis name_given : truthy name = true.

Abbreviation the_addRun := (addRun projectId suiteId name description milestoneId).
Abbreviation init_loop := (fun fuel =>
  Core.initializeTestRun TestRail configs JSON_parse fuel
    projectId name suiteId description milestoneId).

Lemma init_retries (fuel : nat) (w : World) :
  failed JSON_parse the_addRun
    (TestRail (length (api_calls (trace w))) the_addRun) = true ->
  (apiCallsAttempted w < Core.maxCallAttemptsAllowed)%nat ->
  exists t,
    api_calls t = [the_addRun]
    /\ init_loop (S fuel) w = init_loop fuel (after w (S (apiCallsAttempted w)) t).
Proof.
  intros Hfail Hlt. unfold failed in Hfail.
  destruct (normalized JSON_parse _) as [v|] eqn:Hv; [|discriminate].
  simpl in Hfail. destruct (get_prop v "id") as [id|] eqn:Hid; [|discriminate].
  apply negb_true_iff in Hfail. apply Nat.ltb_lt in Hlt.
  cbn [Core.initializeTestRun]. rewrite projectId_given, name_given. unfold Core.debug.
  destruct (configs_debug configs); run_monad.
  all: rewrite parse_response_run, Hv; simpl; rewrite Hid; simpl;
    rewrite Hfail; simpl; rewrite Hlt.
  all: close_run.
Qed.

Lemma init_succeeds (fuel : nat) (w : World) :
  succeeded JSON_parse the_addRun
    (TestRail (length (api_calls (trace w))) the_addRun) = true ->
  exists t,
    api_calls t = [the_addRun]
    /\ init_loop (S fuel) w = (Exit 0, after w (apiCallsAttempted w) t).
Proof.
  intros Hok. unfold succeeded in Hok.
  destruct (normalized JSON_parse _) as [v|] eqn:Hv; [|discriminate].
  simpl in Hok. destruct (get_prop v "id") as [id|] eqn:Hid; [|discriminate].
  cbn [Core.initializeTestRun]. rewrite projectId_given, name_given. unfold Core.debug.
  destruct (configs_debug configs); run_monad.
  all: rewrite parse_response_run, Hv; simpl; rewrite Hid; simpl; rewrite Hok; simpl.
  all: close_run.
Qed.

Lemma init_gives_up (fuel : nat) (w : World) :
  failed JSON_parse the_addRun
    (TestRail (length (api_calls (trace w))) the_addRun) = true ->
  (Core.maxCallAttemptsAllowed <= apiCallsAttempted w)%nat ->
  exists t,
    (api_calls t = [the_addRun]
     /\ Error (PStr ("Error initializing test run in TestRail: "
                       +:+ errorOf JSON_parse
                             (TestRail (length (api_calls (trace w))) the_addRun)))
        ∈ t)
    /\ init_loop (S fuel) w = (Exit 1, after w (apiCallsAttempted w) t).
Proof.
  intros Hfail Hge. unfold errorOf.
  destruct (normalized JSON_parse _) as [v|] eqn:Hv;
    [|unfold failed in Hfail; by rewrite Hv in Hfail].
  destruct (failed_reads_error _ _ _ Hfail Hv) as [e He].
  unfold failed in Hfail. rewrite Hv in Hfail.
  simpl in Hfail. destruct (get_prop v "id") as [id|] eqn:Hid; [|discriminate].
  apply negb_true_iff in Hfail. apply Nat.ltb_ge in Hge.
  cbn [Core.initializeTestRun]. rewrite projectId_given, name_given. unfold Core.debug.
  destruct (configs_debug configs); run_monad.
  all: rewrite parse_response_run, Hv; simpl; rewrite Hid; simpl;
    rewrite Hfail; simpl; rewrite Hge, He; simpl.
  all: close_run.
  all: split; [reflexivity | set_solver].
Qed.

End Init.

Section Finish.

Variable runId : JsValue.
Hypothesis runId_given : truthy runId = true.

Abbreviation finish_loop := (fun fuel =>
  Core.closeTestRun TestRail configs JSON_parse fuel runId).

Lemma finish_retries (fuel : nat) (w : World) :
  failed JSON_parse (closeRun runId)
    (TestRail (length (api_calls (trace w))) (closeRun runId)) = true ->
  (apiCallsAttempted w < Core.maxCallAttemptsAllowed)%nat ->
  exists t,
    api_calls t = [closeRun runId]
    /\ finish_loop (S fuel) w = finish_loop fuel (after w (S (apiCallsAttempted w)) t).
Proof.
  intros Hfail Hlt. unfold failed in Hfail.
  destruct (normalized JSON_parse _) as [v|] eqn:Hv; [|discriminate].
  simpl in Hfail. destruct (get_prop v "completed_on") as [id|] eqn:Hid; [|discriminate].
  apply negb_true_iff in Hfail. apply Nat.ltb_lt in Hlt.
  cbn [Core.closeTestRun]. rewrite runId_given. unfold Core.debug.
  destruct (configs_debug configs); run_monad.
  all: rewrite parse_response_run, Hv; simpl; rewrite Hid; simpl;
    rewrite Hfail; simpl; rewrite Hlt.
  all: close_run.
Qed.

Lemma finish_succeeds (fuel : nat) (w : World) :
  succeeded JSON_parse (closeRun runId)
    (TestRail (length (api_calls (trace w))) (closeRun runId)) = true ->
  exists t,
    api_calls t = [closeRun runId]
    /\ finish_loop (S fuel) w = (Exit 0, after w (apiCallsAttempted w) t).
Proof.
  intros Hok. unfold succeeded in Hok.
  destruct (normalized JSON_parse _) as [v|] eqn:Hv; [|discriminate].
  simpl in Hok. destruct (get_prop v "completed_on") as [id|] eqn:Hid; [|discriminate].
  cbn [Core.closeTestRun]. rewrite runId_given. unfold Core.debug.
  destruct (configs_debug configs); run_monad.
  all: rewrite parse_response_run, Hv; simpl; rewrite Hid; simpl; rewrite Hok; simpl.
  all: close_run.
Qed.

Lemma finish_gives_up (fuel : nat) (w : World) :
  failed JSON_parse (closeRun runId)
    (TestRail (length (api_calls (trace w))) (closeRun runId)) = true ->
  (Core.maxCallAttemptsAllowed <= apiCallsAttempted w)%nat ->
  exists t,
    (api_calls t = [closeRun runId]
     /\ Error (PStr ("There was an error closing the test run: "
                       +:+ errorOf JSON_parse
                             (TestRail (length (api_calls (trace w))) (closeRun runId))))
        ∈ t)
    /\ finish_loop (S fuel) w = (Exit 1, after w (apiCallsAttempted w) t).
Proof.
  intros Hfail Hge. unfold errorOf.
  destruct (normalized JSON_parse _) as [v|] eqn:Hv;
    [|unfold failed in Hfail; by rewrite Hv in Hfail].
  destruct (failed_reads_error _ _ _ Hfail Hv) as [e He].
  unfold failed in Hfail. rewrite Hv in Hfail.
  simpl in Hfail. destruct (get_prop v "completed_on") as [id|] eqn:Hid; [|discriminate].
  apply negb_true_iff in Hfail. apply Nat.ltb_ge in Hge.
  cbn [Core.closeTestRun]. rewrite runId_given. unfold Core.debug.
  destruct (configs_debug configs); run_monad.
  all: rewrite parse_response_run, Hv; simpl; rewrite Hid; simpl;
    rewrite Hfail; simpl; rewrite Hge, He; simpl.
  all: close_run.
  all: split; [reflexivity | set_solver].
Qed.

End Finish.

Section Upload.

Variable runId : JsValue.
Variable caseResults : list CaseResult.

Abbreviation the_upload := (addResultsForCases runId caseResults).
Abbreviation upload_loop := (fun fuel =>
  Core.addResultsForCasesAttempt TestRail configs JSON_parse fuel runId caseResults).

Lemma upload_retries (fuel : nat) (w : World) :
  failed JSON_parse the_upload
    (TestRail (length (api_calls (trace w))) the_upload) = true ->
  (apiCallsAttempted w < Core.maxCallAttemptsAllowed)%nat ->
  exists t,
    api_calls t = [the_upload]
    /\ upload_loop (S fuel) w = upload_loop fuel (after w (S (apiCallsAttempted w)) t).
Proof.
  intros Hfail Hlt. unfold failed in Hfail.
  destruct (normalized JSON_parse _) as [v|] eqn:Hv; [|discriminate].
  apply andb_true_iff in Hfail as [Hfail _].
  apply negb_true_iff in Hfail. apply Nat.ltb_lt in Hlt.
  cbn [Core.addResultsForCasesAttempt]. unfold Core.debug.
  destruct (configs_debug configs); run_monad.
  all: rewrite parse_response_run, Hv; simpl; rewrite Hfail; simpl; rewrite Hlt.
  all: close_run.
Qed.

Lemma upload_succeeds (fuel : nat) (w : World) :
  succeeded JSON_parse the_upload
    (TestRail (length (api_calls (trace w))) the_upload) = true ->
  exists t,
    api_calls t = [the_upload]
    /\ upload_loop (S fuel) w = (Exit 0, after w (apiCallsAttempted w) t).
Proof.
  intros Hok. unfold succeeded in Hok.
  destruct (normalized JSON_parse _) as [v|] eqn:Hv; [|discriminate].
  cbn [Core.addResultsForCasesAttempt]. unfold Core.debug.
  destruct (configs_debug configs); run_monad.
  all: rewrite parse_response_run, Hv; simpl; rewrite Hok; simpl.
  all: close_run.
Qed.

Lemma upload_gives_up (fuel : nat) (w : World) :
  failed JSON_parse the_upload
    (TestRail (length (api_calls (trace w))) the_upload) = true ->
  (Core.maxCallAttemptsAllowed <= apiCallsAttempted w)%nat ->
  exists t,
    (api_calls t = [the_upload]
     /\ Error (PStr ("There was an error uploading test results to TestRail: "
                       +:+ errorOf JSON_parse
                             (TestRail (length (api_calls (trace w))) the_upload)))
        ∈ t)
    /\ upload_loop (S fuel) w = (Exit 1, after w (apiCallsAttempted w) t).
Proof.
  intros Hfail Hge. unfold errorOf.
  destruct (normalized JSON_parse _) as [v|] eqn:Hv;
    [|unfold failed in Hfail; by rewrite Hv in Hfail].
  destruct (failed_reads_error _ _ _ Hfail Hv) as [e He].
  unfold failed in Hfail. rewrite Hv in Hfail.
  apply andb_true_iff in Hfail as [Hfail _].
  apply negb_true_iff in Hfail. apply Nat.ltb_ge in Hge.
  cbn [Core.addResultsForCasesAttempt]. unfold Core.debug.
  destruct (configs_debug configs); run_monad.
  all: rewrite parse_response_run, Hv; simpl; rewrite Hfail; simpl;
    rewrite Hge, He; simpl.
  all: close_run.
  all: split; [reflexivity | set_solver].
Qed.

End Upload.

End Steps.

(** ** The retry law, for any loop that steps as the three loops do *)

Section RetryLaw.

Variable TestRail : nat -> ApiCall -> JsValue.
Variable JSON_parse : string -> option JsValue.
Variable c : ApiCall.
Variable loop : nat -> M unit.
Variable message : string.

Abbreviation calls_before w := (length (api_calls (trace w))).

Hypothesis loop_retries : forall fuel w,
  failed JSON_parse c (TestRail (calls_before w) c) = true ->
  (apiCallsAttempted w < Core.maxCallAttemptsAllowed)%nat ->
  exists t,
    api_calls t = [c] /\ loop (S fuel) w = loop fuel (after w (S (apiCallsAttempted w)) t).

Hypothesis loop_succeeds : forall fuel w,
  succeeded JSON_parse c (TestRail (calls_before w) c) = true ->
  exists t,
    api_calls t = [c] /\ loop (S fuel) w = (Exit 0, after w (apiCallsAttempted w) t).

Hypothesis loop_gives_up : forall fuel w,
  failed JSON_parse c (TestRail (calls_before w) c) = true ->
  (Core.maxCallAttemptsAllowed <= apiCallsAttempted w)%nat ->
  exists t,
    (api_calls t = [c]
     /\ Error (PStr (message +:+ errorOf JSON_parse (TestRail (calls_before w) c))) ∈ t)
    /\ loop (S fuel) w = (Exit 1, after w (apiCallsAttempted w) t).

(** [j] failures in a row within the budget: [j] calls, the counter up by
    [j], and the loop goes on. *)
Lemma failures_in_a_row (j : nat) :
  forall fuel w,
    (apiCallsAttempted w + j <= Core.maxCallAttemptsAllowed)%nat ->
    (forall i, (i < j)%nat ->
               failed JSON_parse c (TestRail (calls_before w + i) c) = true) ->
    exists t,
      api_calls t = repeat c j
      /\ loop (j + fuel) w = loop fuel (after w (apiCallsAttempted w + j) t).
Proof.
  induction j as [|j IH]; intros fuel w Hbudget Hfail.
  - exists []. rewrite Nat.add_0_r, after_nil. split; reflexivity.
  - destruct (loop_retries (j + fuel) w) as (t1 & C1 & E1).
    { rewrite <- (Nat.add_0_r (calls_before w)). apply Hfail. lia. }
    { lia. }
    destruct (IH fuel (after w (S (apiCallsAttempted w)) t1)) as (t2 & C2 & E2).
    { simpl. lia. }
    { intros i Hi. simpl. rewrite api_calls_app, C1, length_app. simpl.
      rewrite <- Nat.add_assoc. apply Hfail. lia. }
    exists (t1 ++ t2). split.
    + rewrite api_calls_app, C1, C2. reflexivity.
    + simpl. rewrite E1, E2, after_after. simpl. f_equal. f_equal. lia.
Qed.

(** A success after [j] failures within the budget ends the run with exit
    code 0 after [j + 1] calls. *)
Lemma success_after_failures (j fuel : nat) (w : World) :
  (apiCallsAttempted w + j <= Core.maxCallAttemptsAllowed)%nat ->
  (j < fuel)%nat ->
  (forall i, (i < j)%nat ->
             failed JSON_parse c (TestRail (calls_before w + i) c) = true) ->
  succeeded JSON_parse c (TestRail (calls_before w + j) c) = true ->
  exists t,
    loop fuel w = (Exit 0, after w (apiCallsAttempted w + j) t)
    /\ api_calls t = repeat c (S j).
Proof.
  intros Hbudget Hfuel Hfail Hok.
  destruct (failures_in_a_row j (fuel - j) w Hbudget Hfail) as (t1 & C1 & E1).
  replace (j + (fuel - j))%nat with fuel in E1 by lia.
  destruct (fuel - j)%nat as [|rest] eqn:Hrest; [lia|].
  destruct (loop_succeeds rest (after w (apiCallsAttempted w + j) t1)) as (t2 & C2 & E2).
  { simpl. rewrite api_calls_app, C1, length_app, repeat_length. exact Hok. }
  exists (t1 ++ t2). rewrite E1, E2, after_after. split; [reflexivity|].
  rewrite api_calls_app, C1, C2. rewrite <- repeat_cons. reflexivity.
Qed.

(** Failures only: the loop calls the client once more than the counter
    has room for, then ends the run with exit code 1 and the error of the
    last response. *)
Lemma failures_exhaust (fuel : nat) (w : World) :
  let room := (Core.maxCallAttemptsAllowed - apiCallsAttempted w)%nat in
  (apiCallsAttempted w <= Core.maxCallAttemptsAllowed)%nat ->
  (room < fuel)%nat ->
  (forall i, (i <= room)%nat ->
             failed JSON_parse c (TestRail (calls_before w + i) c) = true) ->
  exists t,
    loop fuel w = (Exit 1, after w Core.maxCallAttemptsAllowed t)
    /\ api_calls t = repeat c (S room)
    /\ Error (PStr (message +:+ errorOf JSON_parse (TestRail (calls_before w + room) c)))
       ∈ t.
Proof.
  intros room Hle Hfuel Hfail.
  destruct (failures_in_a_row room (fuel - room) w) as (t1 & C1 & E1).
  { unfold room. lia. }
  { intros i Hi. apply Hfail. lia. }
  replace (room + (fuel - room))%nat with fuel in E1 by lia.
  replace (apiCallsAttempted w + room)%nat with Core.maxCallAttemptsAllowed in E1
    by (unfold room; lia).
  destruct (fuel - room)%nat as [|rest] eqn:Hrest; [lia|].
  destruct (loop_gives_up rest (after w Core.maxCallAttemptsAllowed t1))
    as (t2 & (C2 & Hin) & E2).
  { simpl. rewrite api_calls_app, C1, length_app, repeat_length. apply Hfail. lia. }
  { simpl. lia. }
  exists (t1 ++ t2). rewrite E1, E2, after_after. split; [reflexivity|]. split.
  - rewrite api_calls_app, C1, C2. rewrite <- repeat_cons. reflexivity.
  - simpl in Hin. rewrite api_calls_app, C1, length_app, repeat_length in Hin.
    apply elem_of_app. by right.
Qed.

End RetryLaw.

Section Commands.

Variable TestRail : nat -> ApiCall -> JsValue.
Variable configs : Configs.
Variable JSON_parse : string -> option JsValue.

(** C1. With the counter at 0 and a client whose every response is a
    failure, each of the three loops calls the client six times (not five):
    the sixth call is made when the counter has reached 5, and only its
    failure ends the run, with exit code 1 and the error of that sixth
    response. *)
Theorem always_failing_takes_six_calls
    (projectId name suiteId description milestoneId runId : JsValue)
    (caseResults : list CaseResult) (fuel : nat) (w : World) :
  apiCallsAttempted w = 0%nat ->
  trace w = [] ->
  (6 < fuel)%nat ->
  truthy projectId = true -> truthy name = true -> truthy runId = true ->
  (forall i call, failed JSON_parse call (TestRail i call) = true) ->
  (exists t,
     Core.initializeTestRun TestRail configs JSON_parse fuel
       projectId name suiteId description milestoneId w = (Exit 1, after w 5 t)
     /\ api_calls t = repeat (addRun projectId suiteId name description milestoneId) 6
     /\ Error (PStr ("Error initializing test run in TestRail: "
                       +:+ errorOf JSON_parse
                             (TestRail 5 (addRun projectId suiteId name description
                                            milestoneId)))) ∈ t)
  /\ (exists t,
        Core.closeTestRun TestRail configs JSON_parse fuel runId w = (Exit 1, after w 5 t)
        /\ api_calls t = repeat (closeRun runId) 6
        /\ Error (PStr ("There was an error closing the test run: "
                          +:+ errorOf JSON_parse (TestRail 5 (closeRun runId)))) ∈ t)
  /\ (exists t,
        Core.addResultsForCasesAttempt TestRail configs JSON_parse fuel runId caseResults w
        = (Exit 1, after w 5 t)
        /\ api_calls t = repeat (addResultsForCases runId caseResults) 6
        /\ Error (PStr ("There was an error uploading test results to TestRail: "
                          +:+ errorOf JSON_parse
                                (TestRail 5 (addResultsForCases runId caseResults)))) ∈ t).
Proof.
  intros Hzero Hempty Hfuel Hp Hn Hr Hfail.
  assert (Hroom : (Core.maxCallAttemptsAllowed - apiCallsAttempted w)%nat = 5%nat)
    by (rewrite Hzero; reflexivity).
  split; [|split].
  - destruct (failures_exhaust TestRail JSON_parse _ _ _
                (init_retries TestRail configs JSON_parse
                   projectId name suiteId description milestoneId Hp Hn)
                (init_gives_up TestRail configs JSON_parse
                   projectId name suiteId description milestoneId Hp Hn)
                fuel w) as (t & E & C & Hin).
    { rewrite Hzero. unfold Core.maxCallAttemptsAllowed. lia. }
    { rewrite Hroom. lia. }
    { intros; apply Hfail. }
    rewrite Hroom, Hempty in *. by exists t.
  - destruct (failures_exhaust TestRail JSON_parse _ _ _
                (finish_retries TestRail configs JSON_parse runId Hr)
                (finish_gives_up TestRail configs JSON_parse runId Hr)
                fuel w) as (t & E & C & Hin).
    { rewrite Hzero. unfold Core.maxCallAttemptsAllowed. lia. }
    { rewrite Hroom. lia. }
    { intros; apply Hfail. }
    rewrite Hroom, Hempty in *. by exists t.
  - destruct (failures_exhaust TestRail JSON_parse _ _ _
                (upload_retries TestRail configs JSON_parse runId caseResults)
                (upload_gives_up TestRail configs JSON_parse runId caseResults)
                fuel w) as (t & E & C & Hin).
    { rewrite Hzero. unfold Core.maxCallAttemptsAllowed. lia. }
    { rewrite Hroom. lia. }
    { intros; apply Hfail. }
    rewrite Hroom, Hempty in *. by exists t.
Qed.

(** Four failures and then a success: five calls, exit code 0. *)
Lemma fifth_attempt_succeeds
    (projectId name suiteId description milestoneId runId : JsValue)
    (caseResults : list CaseResult) (fuel : nat) (w : World) :
  apiCallsAttempted w = 0%nat ->
  trace w = [] ->
  (4 < fuel)%nat ->
  truthy projectId = true -> truthy name = true -> truthy runId = true ->
  (forall i call, (i < 4)%nat -> failed JSON_parse call (TestRail i call) = true) ->
  (forall call, succeeded JSON_parse call (TestRail 4 call) = true) ->
  (exists t,
     Core.initializeTestRun TestRail configs JSON_parse fuel
       projectId name suiteId description milestoneId w = (Exit 0, after w 4 t)
     /\ api_calls t = repeat (addRun projectId suiteId name description milestoneId) 5)
  /\ (exists t,
        Core.closeTestRun TestRail configs JSON_parse fuel runId w = (Exit 0, after w 4 t)
        /\ api_calls t = repeat (closeRun runId) 5)
  /\ (exists t,
        Core.addResultsForCasesAttempt TestRail configs JSON_parse fuel runId caseResults w
        = (Exit 0, after w 4 t)
        /\ api_calls t = repeat (addResultsForCases runId caseResults) 5).
Proof.
  intros Hzero Hempty Hfuel Hp Hn Hr Hfail Hok.
  assert (Hbudget : (apiCallsAttempted w + 4 <= Core.maxCallAttemptsAllowed)%nat)
    by (rewrite Hzero; unfold Core.maxCallAttemptsAllowed; lia).
  split; [|split].
  - destruct (success_after_failures TestRail JSON_parse _ _
                (init_retries TestRail configs JSON_parse
                   projectId name suiteId description milestoneId Hp Hn)
                (init_succeeds TestRail configs JSON_parse
                   projectId name suiteId description milestoneId Hp Hn)
                4 fuel w Hbudget Hfuel) as (t & E & C).
    { rewrite Hempty. intros; by apply Hfail. }
    { rewrite Hempty. apply Hok. }
    rewrite Hzero in E. by exists t.
  - destruct (success_after_failures TestRail JSON_parse _ _
                (finish_retries TestRail configs JSON_parse runId Hr)
                (finish_succeeds TestRail configs JSON_parse runId Hr)
                4 fuel w Hbudget Hfuel) as (t & E & C).
    { rewrite Hempty. intros; by apply Hfail. }
    { rewrite Hempty. apply Hok. }
    rewrite Hzero in E. by exists t.
  - destruct (success_after_failures TestRail JSON_parse _ _
                (upload_retries TestRail configs JSON_parse runId caseResults)
                (upload_succeeds TestRail configs JSON_parse runId caseResults)
                4 fuel w Hbudget Hfuel) as (t & E & C).
    { rewrite Hempty. intros; by apply Hfail. }
    { rewrite Hempty. apply Hok. }
    rewrite Hzero in E. by exists t.
Qed.

End Commands.

Lemma always_failing_takes_six_calls_witness :
  exists t,
    Core.initializeTestRun always_down scenario_configs no_json 7
      (VInt 2) (VStr "Nightly") VUndefined VUndefined VUndefined fresh
    = (Exit 1, after fresh 5 t)
    /\ api_calls t
       = repeat (addRun (VInt 2) VUndefined (VStr "Nightly") VUndefined VUndefined) 6.
Proof.
  destruct (proj1 (always_failing_takes_six_calls always_down scenario_configs no_json
                     (VInt 2) (VStr "Nightly") VUndefined VUndefined VUndefined (VInt 10)
                     [] 7 fresh eq_refl eq_refl (le_n 7) eq_refl eq_refl eq_refl
                     ltac:(intros i [| |]; reflexivity)))
    as (t & E & C & _).
  exists t. split; [exact E | exact C].
Defined.

(** ** [report] *)

Section Report.

Variable TestRail : nat -> ApiCall -> JsValue.
Variable configs : Configs.
Variable HtmlEntities_decode : option string -> string.
Variable JSON_parse : string -> option JsValue.
Variable statSync : string -> Stat.
Variable readXml : string -> Node.

(** Whatever the client answers, every call of the submission loop carries
    the same run and the same whole batch, and the loop calls at least once. *)
Lemma upload_calls (runId : JsValue) (caseResults : list CaseResult) (fuel : nat) :
  forall w, exists r n t k,
    Core.addResultsForCasesAttempt TestRail configs JSON_parse fuel runId caseResults w
    = (r, after w n t)
    /\ api_calls t = repeat (addResultsForCases runId caseResults) k
    /\ (fuel <> 0%nat -> k <> 0%nat)
    /\ (forall u : unit, r <> Ret u).
Proof.
  induction fuel as [|fuel IH]; intros w.
  - exists OutOfFuel, (apiCallsAttempted w), [], 0%nat.
    rewrite after_nil. repeat split; done.
  - cbn [Core.addResultsForCasesAttempt]. unfold Core.debug.
    destruct (configs_debug configs); run_monad.
    all: rewrite parse_response_run.
    all: destruct (normalized JSON_parse _) as [v|]; simpl;
      [|eexists (Throw _), _, _, 1%nat; split;
        [unfold after; simpl; rewrite <- ?app_assoc; reflexivity|];
        repeat split; done].
    all: destruct (Core.nonempty_array v); simpl;
      [eexists (Exit 0), _, _, 1%nat; split;
        [unfold after; simpl; rewrite <- ?app_assoc; reflexivity|];
        repeat split; done|].
    all: destruct (apiCallsAttempted w <? Core.maxCallAttemptsAllowed)%nat.
    all: try (destruct (get_prop v "error"); simpl;
              [eexists (Exit 1), _, _, 1%nat | eexists (Throw _), _, _, 1%nat];
              (split; [unfold after; simpl; rewrite <- ?app_assoc; reflexivity|];
               repeat split; done)).
    all: match goal with
         | |- context [Core.addResultsForCasesAttempt _ _ _ _ _ _ ?w'] =>
             destruct (IH w') as (r & n & t & k & E & C & _ & Hr)
         end.
    all: rewrite E; eexists r, n, _, (S k); split;
      [unfold after; simpl; rewrite <- ?app_assoc; reflexivity|].
    all: split; [simpl; by rewrite ?api_calls_app, C | split; [done | exact Hr]].
Qed.

Lemma forEach_files_run (files : list string) :
  forall acc w, exists t,
    forEach (fun file acc =>
               Core.parseXmlIntoCaseResults configs HtmlEntities_decode (readXml file) acc)
            files acc w
    = (match extractEach configs HtmlEntities_decode (map readXml files) with
       | Some rs => Ret (acc ++ rs)
       | None => Exit 1
       end, extend w t)
    /\ api_calls t = [].
Proof.
  induction files as [|file files IH]; intros acc w.
  - exists []. simpl. rewrite extend_nil, app_nil_r. split; reflexivity.
  - destruct (parseXml_run configs HtmlEntities_decode (readXml file) acc w)
      as (t1 & E1 & C1).
    simpl. unfold mbind, M_bind. rewrite E1.
    destruct (extract configs HtmlEntities_decode (readXml file)) as [rs|];
      [|by exists t1].
    destruct (IH (acc ++ rs) (extend w t1)) as (t2 & E2 & C2).
    exists (t1 ++ t2). rewrite E2, extend_extend.
    split; [|by rewrite api_calls_app, C1, C2].
    destruct (extractEach configs HtmlEntities_decode (map readXml files));
      [by rewrite app_assoc | reflexivity].
Qed.

(** C9. Given a run and a path that selects [files], whose documents yield
    the concatenated sequence [rs]: when [rs] is empty, [report] makes no
    call to the client, prints "Did not parse any test XML files." and
    returns; when [rs] is not empty, every call it makes is
    [addResultsForCases] with the run and the whole of [rs], and it makes at
    least one. *)
Theorem report_submits_one_batch_or_nothing
    (runId : JsValue) (path : string) (files : list string) (rs : list CaseResult)
    (fuel : nat) (w : World) :
  truthy runId = true ->
  path <> EmptyString ->
  (forall w', Core.selectFiles statSync path w' = (Ret files, w')) ->
  extractEach configs HtmlEntities_decode (map readXml files) = Some rs ->
  (rs = [] ->
   exists t,
     Core.reportXml TestRail configs HtmlEntities_decode JSON_parse statSync readXml
       fuel runId (VStr path) w = (Ret tt, extend w t)
     /\ api_calls t = []
     /\ Log (PStr "Did not parse any test XML files.") ∈ t)
  /\ (rs <> [] -> fuel <> 0%nat ->
      exists r n t k,
        Core.reportXml TestRail configs HtmlEntities_decode JSON_parse statSync readXml
          fuel runId (VStr path) w = (r, after w n t)
        /\ api_calls t = repeat (addResultsForCases runId rs) (S k)).
Proof.
  intros Hrun Hpath Hfiles Hrs.
  assert (Hvalid : negb (truthy (VStr path)) || negb (truthy runId) = false).
  { rewrite Hrun. simpl. destruct path; [done | reflexivity]. }
  destruct (debug_run configs (PStr "Attempting to report runs for test cases.") w)
    as (t1 & E1 & C1).
  destruct (debug_run configs (PStr "Attempting to parse files:") (extend w t1))
    as (t2 & E2 & C2).
  destruct (debug_run configs (PFiles files) (extend (extend w t1) t2))
    as (t3 & E3 & C3).
  destruct (forEach_files_run files [] (extend (extend (extend w t1) t2) t3))
    as (t4 & E4 & C4).
  rewrite Hrs in E4. simpl in E4.
  assert (Hreport :
    Core.reportXml TestRail configs HtmlEntities_decode JSON_parse statSync readXml
      fuel runId (VStr path) w
    = (if negb (Nat.eqb (length rs) 0)
       then Core.addResultsForCasesAttempt TestRail configs JSON_parse fuel runId rs
       else console_log (PStr "Did not parse any test XML files."))
        (extend w (t1 ++ t2 ++ t3 ++ t4))).
  { unfold Core.reportXml. rewrite Hvalid. unfold mbind, M_bind, mret, M_ret.
    by rewrite E1, Hfiles, E2, E3, E4, !extend_extend, <- ?app_assoc. }
  rewrite Hreport. clear Hreport. split.
  - intros ->. simpl.
    exists (t1 ++ t2 ++ t3 ++ t4 ++ [Log (PStr "Did not parse any test XML files.")]).
    unfold console_log. rewrite emit_run, extend_extend, <- ?app_assoc.
    split; [reflexivity|]. split.
    + by rewrite !api_calls_app, C1, C2, C3, C4.
    + set_solver.
  - intros Hne Hfuel. destruct rs as [|r0 rs']; [done|]. simpl.
    destruct (upload_calls runId (r0 :: rs') fuel
                (extend w (t1 ++ t2 ++ t3 ++ t4))) as (r & n & t & k & E & C & Hk & _).
    destruct k as [|k]; [by specialize (Hk Hfuel)|].
    exists r, n, ((t1 ++ t2 ++ t3 ++ t4) ++ t), k. rewrite E. split.
    + unfold after, extend. simpl. by rewrite <- ?app_assoc.
    + by rewrite !api_calls_app, C1, C2, C3, C4, C.
Qed.

End Report.

Lemma report_submits_one_batch_or_nothing_witness :
  exists r n t k,
    Core.reportXml accepting scenario_configs decode_xml no_json scenario_stat scenario_read
      7 (VInt 10) (VStr "suite.xml") fresh = (r, after fresh n t)
    /\ api_calls t
       = repeat (addResultsForCases (VInt 10)
                   [Core.caseResultOf scenario_configs decode_xml scenario_testcase])
                (S k).
Proof.
  exact (proj2 (report_submits_one_batch_or_nothing accepting scenario_configs decode_xml
                  no_json scenario_stat scenario_read (VInt 10) "suite.xml" ["suite.xml"]
                  [Core.caseResultOf scenario_configs decode_xml scenario_testcase]
                  7 fresh eq_refl ltac:(discriminate) (fun w' => eq_refl) eq_refl)
           ltac:(discriminate) ltac:(discriminate)).
Defined.

(** ** Sample evaluations *)

Example ToNumber_samples :
  StringToNumber "4.2" = Dec 42 (-1) /\ StringToNumber "0" = Dec 0 0 /\
  StringToNumber " 12 " = Dec 12 0 /\ StringToNumber "1e3" = Dec 1 3 /\
  StringToNumber "abc" = NaN /\ StringToNumber "" = Dec 0 0 /\
  StringToNumber "-.5" = Dec (-5) (-1) /\ StringToNumber "0x1F" = Dec 31 0 /\
  StringToNumber "1.2.3" = NaN /\ StringToNumber "-Infinity" = Infinity true.
Proof. repeat split; reflexivity. Qed.

Example ToString_samples :
  NumberToString (Dec 42 (-1)) = "4.2" /\ NumberToString (Dec (-1050) (-3)) = "-1.05" /\
  NumberToString (Dec 5 (-3)) = "0.005" /\ NumberToString (Math_ceil (Dec 42 (-1))) = "5" /\
  NumberToString (Math_ceil (Dec (-5) (-1))) = "0" /\
  ToString (VArr [VInt 1; VNull; VStr "a"]) = "1,,a".
Proof. repeat split; reflexivity. Qed.

Example decode_samples :
  decode_xml (Some "Oops &amp; fail") = "Oops & fail"
  /\ decode_xml (Some "a &lt; b &unknown; c") = "a < b &unknown; c"
  /\ decode_xml None = EmptyString.
Proof. repeat split; reflexivity. Qed.

Example elapsed_samples :
  Core.elapsedOf "0" = "1s" /\ Core.elapsedOf "4.2" = "5s"
  /\ Core.elapsedOf "12" = "12s" /\ Core.elapsedOf "0.000" = "1s"
  /\ Core.elapsedOf "0.001" = "1s" /\ Core.elapsedOf "abc" = "NaNs"
  /\ Part000.elapsedOf (Some "0") = "0s" /\ Part000.elapsedOf None = "NaNs".
Proof. repeat split; reflexivity. Qed.

(** Four failures, then success: five calls and exit code 0. *)
Example up_on_fifth_run :
  exists w,
    Core.closeTestRun up_on_fifth scenario_configs no_json 7 (VInt 10) fresh = (Exit 0, w)
    /\ api_calls (trace w) = repeat (closeRun (VInt 10)) 5
    /\ apiCallsAttempted w = 4%nat.
Proof. eexists. repeat split; reflexivity. Qed.

(** Failures only: six calls, the counter at 5, exit code 1. *)
Example always_down_run :
  exists w,
    Core.closeTestRun always_down scenario_configs no_json 7 (VInt 10) fresh = (Exit 1, w)
    /\ api_calls (trace w) = repeat (closeRun (VInt 10)) 6
    /\ apiCallsAttempted w = 5%nat
    /\ last (trace w) = Some (Error (PStr "There was an error closing the test run: down")).
Proof. eexists. repeat split; reflexivity. Qed.

(** A directory is filtered down to its [.xml] entries. *)
Example selectFiles_sample :
  Core.selectFiles (fun _ => IsDirectory ["a.xml"; "notes.txt"; ".xml"; "xml"]) "out" fresh
  = (Ret ["out/a.xml"; "out/.xml"], fresh).
Proof. reflexivity. Qed.

(** * Further properties of the code *)

(** ** Missing arguments *)

Section Validation.

Variable TestRail : nat -> ApiCall -> JsValue.
Variable configs : Configs.
Variable HtmlEntities_decode : option string -> string.
Variable JSON_parse : string -> option JsValue.
Variable statSync : string -> Stat.
Variable readXml : string -> Node.

(** Each command checks its required arguments before anything else: with
    a required argument missing (or otherwise falsy, such as 0 or the empty
    string) it prints its usage line, exits with code 1 and never calls the
    client; [report] does not even look at the file system. *)
Theorem missing_argument_exits
    (projectId name suiteId description milestoneId runId fileOrDir : JsValue)
    (fuel : nat) (w : World) :
  (truthy projectId = false \/ truthy name = false ->
   exists t,
     Core.initializeTestRun TestRail configs JSON_parse (S fuel)
       projectId name suiteId description milestoneId w = (Exit 1, extend w t)
     /\ api_calls t = []
     /\ Error (PStr "You must supply a projectId (-p or --projectId=) and runName (-n or --runName=).") ∈ t)
  /\ (truthy runId = false ->
      exists t,
        Core.closeTestRun TestRail configs JSON_parse (S fuel) runId w
        = (Exit 1, extend w t)
        /\ api_calls t = []
        /\ Error (PStr "You must supply a runId (-r or --runId=).") ∈ t)
  /\ (truthy fileOrDir = false \/ truthy runId = false ->
      exists t,
        Core.reportXml TestRail configs HtmlEntities_decode JSON_parse statSync readXml
          fuel runId fileOrDir w = (Exit 1, extend w t)
        /\ api_calls t = []
        /\ Error (PStr "You must supply a file (-f or --file=) and runId (-r or --runId=).") ∈ t).
Proof.
  split; [|split].
  - intros H.
    assert (Hbad : negb (truthy projectId) || negb (truthy name) = true)
      by (destruct H as [H | H]; rewrite H; [reflexivity | apply orb_true_r]).
    clear H.
    cbn [Core.initializeTestRun]. rewrite Hbad. unfold Core.debug.
    destruct (configs_debug configs); run_monad;
      (eexists; split; [unfold extend; simpl; rewrite <- ?app_assoc; reflexivity|]);
      (split; [reflexivity | set_solver]).
  - intros H. cbn [Core.closeTestRun]. rewrite H. unfold Core.debug.
    destruct (configs_debug configs); run_monad;
      (eexists; split; [unfold extend; simpl; rewrite <- ?app_assoc; reflexivity|]);
      (split; [reflexivity | set_solver]).
  - intros H.
    assert (Hbad : negb (truthy fileOrDir) || negb (truthy runId) = true)
      by (destruct H as [H | H]; rewrite H; [reflexivity | apply orb_true_r]).
    clear H.
    unfold Core.reportXml. rewrite Hbad. unfold Core.debug.
    destruct (configs_debug configs); run_monad;
      (eexists; split; [unfold extend; simpl; rewrite <- ?app_assoc; reflexivity|]);
      (split; [reflexivity | set_solver]).
Qed.

End Validation.

Lemma missing_argument_exits_witness :
  exists t,
    Core.closeTestRun accepting scenario_configs no_json 1 (VInt 0) fresh
    = (Exit 1, extend fresh t)
    /\ api_calls t = [].
Proof.
  destruct (proj1 (proj2 (missing_argument_exits accepting scenario_configs decode_xml
                            no_json scenario_stat scenario_read
                            VUndefined VUndefined VUndefined VUndefined VUndefined
                            (VInt 0) VUndefined 0 fresh)) eq_refl)
    as (t & E & C & _).
  exists t. split; [exact E | exact C].
Defined.

(** ** Any client: how a retry loop ends *)

Section Turns.

Variable TestRail : nat -> ApiCall -> JsValue.
Variable configs : Configs.
Variable JSON_parse : string -> option JsValue.

Ltac turn_branches :=
  repeat first
    [ progress (rewrite parse_response_run)
    | progress simpl
    | match goal with
      | |- context [match normalized JSON_parse ?r with _ => _ end] =>
          destruct (normalized JSON_parse r) as [?v|] eqn:?
      | |- context [match get_prop ?v ?k with _ => _ end] =>
          destruct (get_prop v k) as [?x|] eqn:?
      | |- context [if truthy ?x then _ else _] => destruct (truthy x) eqn:?
      | |- context [if Core.nonempty_array ?x then _ else _] =>
          destruct (Core.nonempty_array x) eqn:?
      | |- context [if (?n <? Core.maxCallAttemptsAllowed)%nat then _ else _] =>
          destruct (n <? Core.maxCallAttemptsAllowed)%nat eqn:?
      end ].

Lemma init_turn (projectId name suiteId description milestoneId : JsValue) :
  truthy projectId = true -> truthy name = true ->
  turn TestRail JSON_parse (fun fuel => Core.initializeTestRun TestRail configs JSON_parse fuel
                      projectId name suiteId description milestoneId)
       (addRun projectId suiteId name description milestoneId).
Proof.
  intros Hp Hn fuel w. cbn [Core.initializeTestRun]. rewrite Hp, Hn.
  unfold verdict, when_failed, Core.debug.
  destruct (configs_debug configs); run_monad; turn_branches; close_run.
Qed.

Lemma finish_turn (runId : JsValue) :
  truthy runId = true ->
  turn TestRail JSON_parse (fun fuel => Core.closeTestRun TestRail configs JSON_parse fuel runId)
       (closeRun runId).
Proof.
  intros Hr fuel w. cbn [Core.closeTestRun]. rewrite Hr.
  unfold verdict, when_failed, Core.debug.
  destruct (configs_debug configs); run_monad; turn_branches; close_run.
Qed.

Lemma upload_turn (runId : JsValue) (caseResults : list CaseResult) :
  turn TestRail JSON_parse (fun fuel => Core.addResultsForCasesAttempt TestRail configs JSON_parse fuel
                      runId caseResults)
       (addResultsForCases runId caseResults).
Proof.
  intros fuel w. cbn [Core.addResultsForCasesAttempt].
  unfold verdict, when_failed, Core.debug.
  destruct (configs_debug configs); run_monad; turn_branches; close_run.
Qed.

End Turns.

Section Ending.

Variable TestRail : nat -> ApiCall -> JsValue.
Variable JSON_parse : string -> option JsValue.
Variable c : ApiCall.
Variable loop : nat -> M unit.
Hypothesis loop_turn : turn TestRail JSON_parse loop c.

Lemma after_counter (w : World) (n : nat) (t : list Event) :
  apiCallsAttempted (after w n t) = n.
Proof. reflexivity. Qed.

Lemma after_trace (w : World) (n : nat) (t : list Event) :
  trace (after w n t) = trace w ++ t.
Proof. reflexivity. Qed.

Lemma verdict_retry_room (attempted : nat) (response : JsValue) :
  verdict JSON_parse c attempted response = Retry ->
  (attempted < Core.maxCallAttemptsAllowed)%nat.
Proof.
  unfold verdict, when_failed. intros H. apply Nat.ltb_lt.
  repeat case_match; try discriminate; reflexivity.
Qed.

Lemma verdict_done (attempted : nat) (response : JsValue) (r : Result unit) :
  verdict JSON_parse c attempted response = Done r ->
  r = Exit 0 \/ r = Exit 1 \/ r = Throw "SyntaxError" \/ r = Throw "TypeError".
Proof.
  unfold verdict, when_failed. intros H.
  repeat case_match; simplify_eq; auto.
Qed.

(** The loop goes round while the verdict is [Retry] and stops at the first
    other verdict, which the counter forces within its room. *)
Lemma loop_ends (k : nat) :
  forall fuel w,
    (Core.maxCallAttemptsAllowed - apiCallsAttempted w <= k)%nat ->
    (k < fuel)%nat ->
    exists r j t,
      loop fuel w = (r, after w (apiCallsAttempted w + j) t)
      /\ api_calls t = repeat c (S j)
      /\ (j <= k)%nat
      /\ verdict JSON_parse c (apiCallsAttempted w + j)
           (TestRail (length (api_calls (trace w)) + j) c) = Done r
      /\ (forall i, (i < j)%nat ->
            verdict JSON_parse c (apiCallsAttempted w + i)
              (TestRail (length (api_calls (trace w)) + i) c) = Retry).
Proof.
  induction k as [|k IH]; intros fuel w Hroom Hfuel.
  all: destruct fuel as [|fuel]; [lia|].
  all: destruct (loop_turn fuel w) as (t1 & C1 & E1).
  all: destruct (verdict JSON_parse c (apiCallsAttempted w)
                   (TestRail (length (api_calls (trace w))) c)) as [|r] eqn:Hv.
  all: try (exists r, 0%nat, t1; rewrite !Nat.add_0_r;
            split; [exact E1|]; split; [by rewrite C1|]; split; [lia|];
            split; [exact Hv | intros; lia]).
  - apply verdict_retry_room in Hv. exfalso. lia.
  - destruct (IH fuel (after w (S (apiCallsAttempted w)) t1)) as (r & j & t2 & E2 & C2 & Hj & Hd & Hr).
    { rewrite after_counter. lia. }
    { lia. }
    rewrite after_counter in E2, Hd, Hr. rewrite after_trace in Hd, Hr.
    rewrite api_calls_app, C1, length_app in Hd.
    cbn [length] in Hd.
    exists r, (S j), (t1 ++ t2). rewrite E1, E2, after_after.
    replace (apiCallsAttempted w + S j)%nat with (S (apiCallsAttempted w + j)) by lia.
    split; [reflexivity|]. split; [by rewrite api_calls_app, C1, C2|].
    split; [lia|]. split.
    + rewrite <- Hd. f_equal. f_equal. lia.
    + intros [|i] Hi.
      * by rewrite !Nat.add_0_r.
      * rewrite <- (Hr i ltac:(lia)). rewrite api_calls_app, C1, length_app.
        cbn [length]. f_equal; [lia | f_equal; lia].
Qed.

Lemma loop_ends_within (fuel : nat) (w : World) :
  (Core.maxCallAttemptsAllowed - apiCallsAttempted w < fuel)%nat ->
  exists r j t,
    loop fuel w = (r, after w (apiCallsAttempted w + j) t)
    /\ api_calls t = repeat c (S j)
    /\ (j <= Core.maxCallAttemptsAllowed - apiCallsAttempted w)%nat
    /\ (r = Exit 0 \/ r = Exit 1 \/ r = Throw "SyntaxError" \/ r = Throw "TypeError").
Proof.
  intros Hfuel.
  destruct (loop_ends _ fuel w (Nat.le_refl _) Hfuel) as (r & j & t & E & C & Hj & Hd & _).
  exists r, j, t. repeat split; try assumption. by eapply verdict_done.
Qed.

Lemma loop_first_done (fuel : nat) (w : World) (r : Result unit) :
  verdict JSON_parse c (apiCallsAttempted w)
    (TestRail (length (api_calls (trace w))) c) = Done r ->
  exists t, loop (S fuel) w = (r, after w (apiCallsAttempted w) t) /\ api_calls t = [c].
Proof.
  intros Hv. destruct (loop_turn fuel w) as (t & C & E). rewrite Hv in E. by exists t.
Qed.

End Ending.

Section AnyClient.

Variable TestRail : nat -> ApiCall -> JsValue.
Variable configs : Configs.
Variable JSON_parse : string -> option JsValue.

(** Whatever the client answers, each loop ends, by [process.exit] or by
    an exception and never by returning: it makes between one and
    [maxCallAttemptsAllowed - apiCallsAttempted + 1] calls, all with the
    same arguments, and leaves the counter raised by the number of calls
    that were retried. *)
Theorem retry_loops_end
    (projectId name suiteId description milestoneId runId : JsValue)
    (caseResults : list CaseResult) (fuel : nat) (w : World) :
  truthy projectId = true -> truthy name = true -> truthy runId = true ->
  (Core.maxCallAttemptsAllowed - apiCallsAttempted w < fuel)%nat ->
  (exists r j t,
     Core.initializeTestRun TestRail configs JSON_parse fuel
       projectId name suiteId description milestoneId w
     = (r, after w (apiCallsAttempted w + j) t)
     /\ api_calls t = repeat (addRun projectId suiteId name description milestoneId) (S j)
     /\ (j <= Core.maxCallAttemptsAllowed - apiCallsAttempted w)%nat
     /\ (r = Exit 0 \/ r = Exit 1 \/ r = Throw "SyntaxError" \/ r = Throw "TypeError"))
  /\ (exists r j t,
        Core.closeTestRun TestRail configs JSON_parse fuel runId w
        = (r, after w (apiCallsAttempted w + j) t)
        /\ api_calls t = repeat (closeRun runId) (S j)
        /\ (j <= Core.maxCallAttemptsAllowed - apiCallsAttempted w)%nat
        /\ (r = Exit 0 \/ r = Exit 1 \/ r = Throw "SyntaxError" \/ r = Throw "TypeError"))
  /\ (exists r j t,
        Core.addResultsForCasesAttempt TestRail configs JSON_parse fuel runId caseResults w
        = (r, after w (apiCallsAttempted w + j) t)
        /\ api_calls t = repeat (addResultsForCases runId caseResults) (S j)
        /\ (j <= Core.maxCallAttemptsAllowed - apiCallsAttempted w)%nat
        /\ (r = Exit 0 \/ r = Exit 1 \/ r = Throw "SyntaxError" \/ r = Throw "TypeError")).
Proof.
  intros Hp Hn Hr Hfuel. split; [|split].
  - exact (loop_ends_within TestRail JSON_parse _ _
             (init_turn TestRail configs JSON_parse _ _ suiteId description milestoneId
                Hp Hn) fuel w Hfuel).
  - exact (loop_ends_within TestRail JSON_parse _ _
             (finish_turn TestRail configs JSON_parse _ Hr) fuel w Hfuel).
  - exact (loop_ends_within TestRail JSON_parse _ _
             (upload_turn TestRail configs JSON_parse runId caseResults) fuel w Hfuel).
Qed.

(** A textual response that [JSON.parse] rejects is not retried: the
    SyntaxError leaves the callback after that one call, with the counter
    untouched, in each of the three loops. *)
Theorem unparsable_response_is_not_retried
    (projectId name suiteId description milestoneId runId : JsValue)
    (caseResults : list CaseResult) (fuel : nat) (w : World) (text : string) :
  truthy projectId = true -> truthy name = true -> truthy runId = true ->
  (forall call, TestRail (length (api_calls (trace w))) call = VStr text) ->
  JSON_parse text = None ->
  (exists t,
     Core.initializeTestRun TestRail configs JSON_parse (S fuel)
       projectId name suiteId description milestoneId w
     = (Throw "SyntaxError", after w (apiCallsAttempted w) t)
     /\ api_calls t = [addRun projectId suiteId name description milestoneId])
  /\ (exists t,
        Core.closeTestRun TestRail configs JSON_parse (S fuel) runId w
        = (Throw "SyntaxError", after w (apiCallsAttempted w) t)
        /\ api_calls t = [closeRun runId])
  /\ (exists t,
        Core.addResultsForCasesAttempt TestRail configs JSON_parse (S fuel)
          runId caseResults w
        = (Throw "SyntaxError", after w (apiCallsAttempted w) t)
        /\ api_calls t = [addResultsForCases runId caseResults]).
Proof.
  intros Hp Hn Hr Htext Hparse.
  assert (Hv : forall call,
    verdict JSON_parse call (apiCallsAttempted w)
      (TestRail (length (api_calls (trace w))) call) = Done (Throw "SyntaxError")).
  { intros call. unfold verdict. rewrite Htext. simpl. by rewrite Hparse. }
  split; [|split].
  - exact (loop_first_done TestRail JSON_parse _ _
             (init_turn TestRail configs JSON_parse _ _ suiteId description milestoneId
                Hp Hn) fuel w _ (Hv _)).
  - exact (loop_first_done TestRail JSON_parse _ _
             (finish_turn TestRail configs JSON_parse _ Hr) fuel w _ (Hv _)).
  - exact (loop_first_done TestRail JSON_parse _ _
             (upload_turn TestRail configs JSON_parse runId caseResults) fuel w _ (Hv _)).
Qed.

(** A client that hands [null] to the callback: [init] and [finish] stop
    with a TypeError at the first response, reading a property of [null];
    the upload loop takes [null] for a failure, retries while the counter
    has room and only then stops with the TypeError, reading
    [response.error] for its message. *)
Theorem null_response
    (projectId name suiteId description milestoneId runId : JsValue)
    (caseResults : list CaseResult) (fuel : nat) (w : World) :
  truthy projectId = true -> truthy name = true -> truthy runId = true ->
  (forall i call, TestRail i call = VNull) ->
  (Core.maxCallAttemptsAllowed - apiCallsAttempted w < fuel)%nat ->
  (apiCallsAttempted w <= Core.maxCallAttemptsAllowed)%nat ->
  (exists t,
     Core.initializeTestRun TestRail configs JSON_parse fuel
       projectId name suiteId description milestoneId w
     = (Throw "TypeError", after w (apiCallsAttempted w) t)
     /\ api_calls t = [addRun projectId suiteId name description milestoneId])
  /\ (exists t,
        Core.closeTestRun TestRail configs JSON_parse fuel runId w
        = (Throw "TypeError", after w (apiCallsAttempted w) t)
        /\ api_calls t = [closeRun runId])
  /\ (exists t,
        Core.addResultsForCasesAttempt TestRail configs JSON_parse fuel runId caseResults w
        = (Throw "TypeError", after w Core.maxCallAttemptsAllowed t)
        /\ api_calls t
           = repeat (addResultsForCases runId caseResults)
                    (S (Core.maxCallAttemptsAllowed - apiCallsAttempted w))).
Proof.
  intros Hp Hn Hr Hnull Hfuel Hle.
  destruct fuel as [|fuel]; [lia|].
  split; [|split].
  - apply (loop_first_done TestRail JSON_parse _ _
             (init_turn TestRail configs JSON_parse _ _ suiteId description milestoneId
                Hp Hn) fuel w).
    unfold verdict. by rewrite Hnull.
  - apply (loop_first_done TestRail JSON_parse _ _
             (finish_turn TestRail configs JSON_parse _ Hr) fuel w).
    unfold verdict. by rewrite Hnull.
  - destruct (loop_ends TestRail JSON_parse _ _
                (upload_turn TestRail configs JSON_parse runId caseResults)
                _ (S fuel) w (Nat.le_refl _) Hfuel) as (r & j & t & E & C & Hj & Hd & _).
    unfold verdict, when_failed in Hd. rewrite Hnull in Hd. simpl in Hd.
    destruct (apiCallsAttempted w + j <? Core.maxCallAttemptsAllowed)%nat eqn:Hlt;
      [discriminate|].
    apply Nat.ltb_ge in Hlt. injection Hd as <-.
    assert (j = Core.maxCallAttemptsAllowed - apiCallsAttempted w)%nat as -> by lia.
    exists t. rewrite E. split; [|exact C]. do 2 f_equal. lia.
Qed.

End AnyClient.

Lemma retry_loops_end_witness :
  exists r j t,
    Core.closeTestRun up_on_fifth scenario_configs no_json 7 (VInt 10) fresh
    = (r, after fresh (0 + j) t)
    /\ api_calls t = repeat (closeRun (VInt 10)) (S j)
    /\ (j <= 5)%nat.
Proof.
  destruct (proj1 (proj2 (retry_loops_end up_on_fifth scenario_configs no_json
                            (VInt 2) (VStr "Nightly") VUndefined VUndefined VUndefined
                            (VInt 10) [] 7 fresh eq_refl eq_refl eq_refl
                            (le_S _ _ (le_n 6)))))
    as (r & j & t & E & C & Hj & _).
  exists r, j, t. split; [exact E|]. split; [exact C | exact Hj].
Defined.

Lemma unparsable_response_is_not_retried_witness :
  exists t,
    Core.initializeTestRun garbled scenario_configs no_json 1
      (VInt 2) (VStr "Nightly") VUndefined VUndefined VUndefined fresh
    = (Throw "SyntaxError", after fresh 0 t)
    /\ api_calls t = [addRun (VInt 2) VUndefined (VStr "Nightly") VUndefined VUndefined].
Proof.
  exact (proj1 (unparsable_response_is_not_retried garbled scenario_configs no_json
                  (VInt 2) (VStr "Nightly") VUndefined VUndefined VUndefined (VInt 10)
                  [] 0 fresh "<html>Bad Gateway</html>" eq_refl eq_refl eq_refl
                  (fun _ => eq_refl) eq_refl)).
Defined.

Lemma null_response_witness :
  exists t,
    Core.addResultsForCasesAttempt silent scenario_configs no_json 7 (VInt 10) [] fresh
    = (Throw "TypeError", after fresh 5 t)
    /\ api_calls t = repeat (addResultsForCases (VInt 10) []) 6.
Proof.
  exact (proj2 (proj2 (null_response silent scenario_configs no_json
                         (VInt 2) (VStr "Nightly") VUndefined VUndefined VUndefined
                         (VInt 10) [] 7 fresh eq_refl eq_refl eq_refl
                         (fun _ _ => eq_refl) (le_S _ _ (le_n 6))
                         (le_S _ _ (le_S _ _ (le_S _ _ (le_S _ _ (le_S _ _ (le_n 0))))))))).
Defined.

(** ** What a successful run prints *)

Section Success.

Variable TestRail : nat -> ApiCall -> JsValue.
Variable configs : Configs.
Variable JSON_parse : string -> option JsValue.

Ltac close_with_output :=
  eexists; split; [|unfold after, extend; simpl; rewrite <- ?app_assoc; reflexivity];
  simpl; split; [reflexivity | set_solver].

(** A successful first response ends the run with exit code 0 after one
    call and without touching the counter.  [init] prints the [id] of the
    response; [finish] names the run it was given; the upload prints the
    length of the array the service answered with, not the number of
    results it sent. *)
Theorem success_output
    (projectId name suiteId description milestoneId runId : JsValue)
    (caseResults : list CaseResult) (fuel : nat) (w : World) :
  truthy projectId = true -> truthy name = true -> truthy runId = true ->
  (forall v id,
     normalized JSON_parse
       (TestRail (length (api_calls (trace w)))
                 (addRun projectId suiteId name description milestoneId)) = Some v ->
     get_prop v "id" = Some id -> truthy id = true ->
     exists t,
       (api_calls t = [addRun projectId suiteId name description milestoneId]
        /\ Log (PVal id) ∈ t)
       /\ Core.initializeTestRun TestRail configs JSON_parse (S fuel)
            projectId name suiteId description milestoneId w
          = (Exit 0, after w (apiCallsAttempted w) t))
  /\ (forall v completed_on,
        normalized JSON_parse
          (TestRail (length (api_calls (trace w))) (closeRun runId)) = Some v ->
        get_prop v "completed_on" = Some completed_on -> truthy completed_on = true ->
        exists t,
          (api_calls t = [closeRun runId]
           /\ Log (PStr ("Successfully closed test run " +:+ ToString runId +:+ ".")) ∈ t)
          /\ Core.closeTestRun TestRail configs JSON_parse (S fuel) runId w
             = (Exit 0, after w (apiCallsAttempted w) t))
  /\ (forall first others,
        normalized JSON_parse
          (TestRail (length (api_calls (trace w))) (addResultsForCases runId caseResults))
        = Some (VArr (first :: others)) ->
        exists t,
          (api_calls t = [addResultsForCases runId caseResults]
           /\ Log (PStr ("Successfully uploaded " +:+ pretty (S (length others))
                           +:+ " test case results to TestRail.")) ∈ t)
          /\ Core.addResultsForCasesAttempt TestRail configs JSON_parse (S fuel)
               runId caseResults w
             = (Exit 0, after w (apiCallsAttempted w) t)).
Proof.
  intros Hp Hn Hr. split; [|split].
  - intros v id Hv Hid Hok.
    cbn [Core.initializeTestRun]. rewrite Hp, Hn. unfold Core.debug.
    destruct (configs_debug configs); run_monad.
    all: rewrite parse_response_run, Hv; simpl; rewrite Hid; simpl; rewrite Hok; simpl.
    all: close_with_output.
  - intros v completed_on Hv Hid Hok.
    cbn [Core.closeTestRun]. rewrite Hr. unfold Core.debug.
    destruct (configs_debug configs); run_monad.
    all: rewrite parse_response_run, Hv; simpl; rewrite Hid; simpl; rewrite Hok; simpl.
    all: close_with_output.
  - intros first others Hv.
    cbn [Core.addResultsForCasesAttempt]. unfold Core.debug.
    destruct (configs_debug configs); run_monad.
    all: rewrite parse_response_run, Hv; simpl.
    all: close_with_output.
Qed.

End Success.

Lemma success_output_witness :
  exists t,
    (api_calls t = [addResultsForCases (VInt 10) []]
     /\ Log (PStr ("Successfully uploaded " +:+ pretty 1%nat
                     +:+ " test case results to TestRail.")) ∈ t)
    /\ Core.addResultsForCasesAttempt (fun _ _ => VArr [VObj []]) scenario_configs no_json 1
         (VInt 10) [] fresh
       = (Exit 0, after fresh 0 t).
Proof.
  exact (proj2 (proj2 (success_output (fun _ _ => VArr [VObj []]) scenario_configs no_json
                         (VInt 2) (VStr "Nightly") VUndefined VUndefined VUndefined
                         (VInt 10) [] 0 fresh eq_refl eq_refl eq_refl))
           (VObj []) [] eq_refl).
Defined.

(** ** What the walk prints *)

Section Diagnostics.

Variable configs : Configs.
Variable HtmlEntities_decode : option string -> string.

Abbreviation reported' := (reported configs).

Lemma count_msg_app (s : string) (t1 t2 : list Event) :
  count_msg s (t1 ++ t2) = (count_msg s t1 + count_msg s t2)%nat.
Proof. unfold count_msg. by rewrite List.filter_app, length_app. Qed.

Lemma reported_nil : reported' 0 0 [].
Proof. repeat split; [constructor | by destruct (configs_debug configs)..]. Qed.

Lemma reported_app (u1 a1 u2 a2 : nat) (t1 t2 : list Event) :
  reported' u1 a1 t1 -> reported' u2 a2 t2 -> reported' (u1 + u2) (a1 + a2) (t1 ++ t2).
Proof.
  intros (E1 & Q1 & U1 & A1) (E2 & Q2 & U2 & A2). repeat split.
  - by apply Forall_app.
  - intros H. by rewrite (Q1 H), (Q2 H).
  - rewrite count_msg_app, U1, U2. by destruct (configs_debug configs).
  - rewrite count_msg_app, A1, A2. by destruct (configs_debug configs).
Qed.

Lemma eachTestcase_reported (c : Node) (acc : list CaseResult) (w : World) :
  exists t,
    Core.eachTestcase configs HtmlEntities_decode c acc w
    = (Ret (acc ++ if resolves configs HtmlEntities_decode c
                   then [Core.caseResultOf configs HtmlEntities_decode c] else []),
       extend w t)
    /\ reported' (if unresolved configs HtmlEntities_decode c then 1 else 0)
                (if resolves configs HtmlEntities_decode c then 1 else 0) t.
Proof.
  unfold Core.eachTestcase, resolves, unresolved, reported.
  rewrite <- mapped_resolves. unfold Core.mapped at 2. cbn [case_id Core.caseResultOf].
  destruct (String.eqb (name c) "testcase"); cbn [andb].
  2:{ exists []. rewrite extend_nil, app_nil_r.
      repeat split; [constructor | by destruct (configs_debug configs)..]. }
  destruct (Core.resolveCaseIdFromTestCase configs HtmlEntities_decode c) as [id|] eqn:Hid.
  - pose proof (resolve_nonzero _ _ _ _ Hid) as Hnz.
    assert (Htruthy : truthy (VInt id) = true) by (destruct id; [lia | reflexivity..]).
    unfold Core.mapped. cbn [case_id Core.caseResultOf]. rewrite Hid, Htruthy.
    unfold Core.debug. destruct (configs_debug configs); run_monad.
    + eexists. split; [unfold extend; simpl; rewrite <- ?app_assoc; reflexivity|].
      repeat split; try done. repeat constructor.
    + exists []. rewrite extend_nil. repeat split; try done.
  - unfold Core.mapped. cbn [case_id Core.caseResultOf]. rewrite Hid.
    unfold Core.debug. destruct (configs_debug configs); run_monad.
    + eexists. split; [unfold extend; simpl; rewrite <- ?app_assoc; reflexivity|].
      repeat split; try done. repeat constructor.
    + exists []. rewrite extend_nil. repeat split; try done.
Qed.

Lemma forEach_reported (cs : list Node) :
  forall acc w, exists t,
    forEach (Core.eachTestcase configs HtmlEntities_decode) cs acc w
    = (Ret (acc ++ suiteResults configs HtmlEntities_decode cs), extend w t)
    /\ reported' (length (List.filter (unresolved configs HtmlEntities_decode) cs))
                 (length (List.filter (resolves configs HtmlEntities_decode) cs)) t.
Proof.
  induction cs as [|c cs IH]; intros acc w.
  - exists []. unfold suiteResults. simpl. rewrite extend_nil, app_nil_r.
    split; [reflexivity | apply reported_nil].
  - destruct (eachTestcase_reported c acc w) as (t1 & E1 & R1).
    match type of E1 with _ = (Ret ?acc', _) =>
      destruct (IH acc' (extend w t1)) as (t2 & E2 & R2) end.
    exists (t1 ++ t2). cbn [forEach]. unfold mbind, M_bind. rewrite E1, E2.
    rewrite extend_extend, suiteResults_cons, app_assoc. split; [reflexivity|].
    pose proof (reported_app _ _ _ _ _ _ R1 R2) as R. cbn [List.filter].
    destruct (unresolved configs HtmlEntities_decode c),
             (resolves configs HtmlEntities_decode c); exact R.
Qed.

Lemma filter_unresolved_testcase (cs : list Node) :
  List.filter (unresolved configs HtmlEntities_decode)
    (List.filter (fun c => String.eqb (name c) "testcase") cs)
  = List.filter (unresolved configs HtmlEntities_decode) cs.
Proof.
  induction cs as [|c cs IH]; [reflexivity|]. simpl.
  destruct (String.eqb (name c) "testcase") eqn:E.
  - simpl. by rewrite IH.
  - unfold unresolved at 2. by rewrite E.
Qed.

Lemma parseXml_reported (xml : Node) :
  forall rs acc w,
    extract configs HtmlEntities_decode xml = Some rs ->
    exists t,
      Core.parseXmlIntoCaseResults configs HtmlEntities_decode xml acc w
      = (Ret (acc ++ rs), extend w t)
      /\ reported' (length (List.filter (unresolved configs HtmlEntities_decode)
                                        (testcases xml)))
                   (length rs) t.
Proof.
  induction xml as [n a cs IH] using Node_forall_ind. intros rs acc w.
  destruct (String.eqb n "testsuite" && negb (Nat.eqb (length cs) 0)) eqn:Hsuite.
  { cbn [extract Core.parseXmlIntoCaseResults testcases]. rewrite Hsuite.
    apply andb_true_iff in Hsuite as [Hn _]. rewrite Hn. intros [= <-].
    destruct (forEach_reported cs acc w) as (t & E & R). exists t. split; [exact E|].
    rewrite filter_unresolved_testcase. unfold suiteResults. by rewrite length_map. }
  destruct (String.eqb n "testsuites") eqn:Hsuites.
  2:{ cbn [extract]. rewrite Hsuite, Hsuites. discriminate. }
  apply String.eqb_eq in Hsuites as ->. clear Hsuite.
  rewrite extract_testsuites. cbn [testcases]. cbn [String.eqb Ascii.eqb Bool.eqb].
  revert rs acc w. induction IH as [|c cs Hc _ IHcs]; intros rs acc w.
  - intros [= <-]. exists []. rewrite parseXml_testsuites. simpl.
    rewrite extend_nil, app_nil_r. split; [reflexivity | apply reported_nil].
  - cbn [extractEach]. destruct (extract configs HtmlEntities_decode c) as [r1|] eqn:E1;
      [|discriminate].
    destruct (extractEach configs HtmlEntities_decode cs) as [r2|] eqn:E2; [|discriminate].
    intros [= <-].
    destruct (Hc r1 acc w eq_refl) as (t1 & R1 & Q1).
    destruct (IHcs r2 (acc ++ r1) (extend w t1) eq_refl) as (t2 & R2 & Q2).
    rewrite parseXml_testsuites in R2 |- *.
    exists (t1 ++ t2). cbn [forEach]. unfold mbind, M_bind. rewrite R1, R2.
    rewrite extend_extend, app_assoc. split; [reflexivity|].
    rewrite List.filter_app, !length_app. by apply reported_app.
Qed.

(** With the debug flag set, a walk that returns has printed, on the error
    channel only, one "Unable to map testCase to TestRail CaseID:" line for
    each [testcase] entry it could not resolve and one "Appending case
    result:" line for each result it appended: the dropped cases can be
    counted from the output. *)
Theorem dropped_cases_are_reported (xml : Node) (rs acc : list CaseResult) (w : World) :
  configs_debug configs = true ->
  extract configs HtmlEntities_decode xml = Some rs ->
  exists t,
    Core.parseXmlIntoCaseResults configs HtmlEntities_decode xml acc w
    = (Ret (acc ++ rs), extend w t)
    /\ Forall (fun e => is_error e = true) t
    /\ count_msg "Unable to map testCase to TestRail CaseID:" t
       = length (List.filter (unresolved configs HtmlEntities_decode) (testcases xml))
    /\ count_msg "Appending case result:" t = length rs.
Proof.
  intros Hdebug Hrs.
  destruct (parseXml_reported xml rs acc w Hrs) as (t & E & He & _ & Hu & Ha).
  rewrite Hdebug in Hu, Ha. by exists t.
Qed.

Lemma parseXml_quiet (xml : Node) :
  configs_debug configs = false ->
  forall acc w,
    Core.parseXmlIntoCaseResults configs HtmlEntities_decode xml acc w
    = match extract configs HtmlEntities_decode xml with
      | Some rs => (Ret (acc ++ rs), w)
      | None => (Exit 1, extend w [Error (PStr "Invalid xml. Expected root name testsuite")])
      end.
Proof.
  intros Hdebug. induction xml as [n a cs IH] using Node_forall_ind. intros acc w.
  destruct (extract configs HtmlEntities_decode (MkNode n a cs)) as [rs|] eqn:Hx.
  { destruct (parseXml_reported _ rs acc w Hx) as (t & E & _ & Hq & _).
    rewrite (Hq Hdebug), extend_nil in E. exact E. }
  destruct (String.eqb n "testsuite" && negb (Nat.eqb (length cs) 0)) eqn:Hsuite.
  { cbn [extract] in Hx. by rewrite Hsuite in Hx. }
  destruct (String.eqb n "testsuites") eqn:Hsuites.
  2:{ cbn [Core.parseXmlIntoCaseResults]. rewrite Hsuite, Hsuites.
      unfold Core.debug. rewrite Hdebug. reflexivity. }
  apply String.eqb_eq in Hsuites as ->. clear Hsuite.
  rewrite extract_testsuites in Hx. rewrite parseXml_testsuites. clear a.
  revert acc w Hx. induction IH as [|c cs Hc _ IHcs]; intros acc w Hx; [discriminate|].
  cbn [extractEach] in Hx. cbn [forEach]. unfold mbind, M_bind. rewrite Hc.
  destruct (extract configs HtmlEntities_decode c) as [r1|]; [|reflexivity].
  apply IHcs. by destruct (extractEach configs HtmlEntities_decode cs).
Qed.

(** Without the debug flag the walk prints nothing while it goes: on a
    document from which it returns it leaves console and counter exactly as
    they were, and on one that it rejects the only thing added is the line
    "Invalid xml. Expected root name testsuite" before exit code 1. *)
Theorem walk_is_quiet_without_debug (xml : Node) (acc : list CaseResult) (w : World) :
  configs_debug configs = false ->
  (forall rs, extract configs HtmlEntities_decode xml = Some rs ->
     Core.parseXmlIntoCaseResults configs HtmlEntities_decode xml acc w
     = (Ret (acc ++ rs), w))
  /\ (extract configs HtmlEntities_decode xml = None ->
      Core.parseXmlIntoCaseResults configs HtmlEntities_decode xml acc w
      = (Exit 1, extend w [Error (PStr "Invalid xml. Expected root name testsuite")])).
Proof.
  intros Hdebug. rewrite (parseXml_quiet xml Hdebug acc w).
  split; [by intros rs -> | by intros ->].
Qed.

End Diagnostics.

Lemma dropped_cases_are_reported_witness :
  let other := MkNode "testcase" {[ "name" := "B"; "class" := "C" ]} [] in
  let suite := MkNode "testsuite" ∅ [other; scenario_testcase; other] in
  exists t,
    Core.parseXmlIntoCaseResults debug_configs decode_xml suite [] fresh
    = (Ret ([] ++ [Core.caseResultOf debug_configs decode_xml scenario_testcase]),
       extend fresh t)
    /\ count_msg "Unable to map testCase to TestRail CaseID:" t = 2%nat
    /\ count_msg "Appending case result:" t = 1%nat.
Proof.
  intros other suite.
  destruct (dropped_cases_are_reported debug_configs decode_xml suite
              [Core.caseResultOf debug_configs decode_xml scenario_testcase] [] fresh
              eq_refl eq_refl) as (t & E & _ & U & A).
  exists t. split; [exact E|]. split; [exact U | exact A].
Defined.

Lemma walk_is_quiet_without_debug_witness :
  Core.parseXmlIntoCaseResults scenario_configs decode_xml
    (MkNode "testsuites" ∅ [scenario_suite; MkNode "testsuite" ∅ []]) [] fresh
  = (Exit 1, extend fresh [Error (PStr "Invalid xml. Expected root name testsuite")]).
Proof.
  exact (proj2 (walk_is_quiet_without_debug scenario_configs decode_xml
                  (MkNode "testsuites" ∅ [scenario_suite; MkNode "testsuite" ∅ []])
                  [] fresh eq_refl) eq_refl).
Defined.

(** ** The files that [report] reads *)

Lemma append_cons (x : ascii) (a b : string) : String x a +:+ b = String x (a +:+ b).
Proof. reflexivity. Qed.


Lemma length_append (a b : string) :
  String.length (a +:+ b) = (String.length a + String.length b)%nat.
Proof.
  induction a as [|x a IH]; [reflexivity|]. rewrite append_cons. cbn. by rewrite IH.
Qed.

Lemma substring_all (s : string) : String.substring 0 (String.length s) s = s.
Proof. induction s as [|x s IH]; [reflexivity|]. cbn. by rewrite IH. Qed.

Lemma substring_suffix (p q : string) :
  String.substring (String.length p) (String.length q) (p +:+ q) = q.
Proof.
  induction p as [|x p IH]; [apply substring_all|]. rewrite append_cons. exact IH.
Qed.

Lemma substring_split (s : string) :
  forall i, (i <= String.length s)%nat ->
    s = String.substring 0 i s +:+ String.substring i (String.length s - i) s.
Proof.
  induction s as [|x s IH]; intros [|i] Hi; cbn in *; try lia.
  - reflexivity.
  - by rewrite substring_all.
  - rewrite append_cons. f_equal. apply IH. lia.
Qed.

Lemma ends_with_xml_stem (s : string) :
  ends_with_xml s = true -> exists stem, s = stem +:+ ".xml".
Proof.
  unfold ends_with_xml, substring_from.
  replace (Z.to_nat (Z.max 0 (Z.of_nat (String.length s) - 4)))
    with (String.length s - 4)%nat by lia.
  rewrite String.eqb_eq. intros H.
  exists (String.substring 0 (String.length s - 4) s).
  rewrite <- H. apply substring_split. lia.
Qed.

Lemma stem_ends_with_xml (stem : string) : ends_with_xml (stem +:+ ".xml") = true.
Proof.
  unfold ends_with_xml, substring_from.
  replace (Z.to_nat (Z.max 0 (Z.of_nat (String.length (stem +:+ ".xml")) - 4)))
    with (String.length (stem +:+ ".xml") - 4)%nat by lia.
  rewrite String.eqb_eq, length_append. cbn [String.length].
  replace (String.length stem + 4 - 4)%nat with (String.length stem) by lia.
  replace (String.length stem + 4 - String.length stem)%nat
    with (String.length ".xml") by (cbn; lia).
  apply substring_suffix.
Qed.

(** The test [s.substring(s.length - 4) === '.xml'] holds exactly of the
    strings that end in [.xml] (in lower case), however short the string. *)
Theorem ends_with_xml_iff (s : string) :
  ends_with_xml s = true <-> exists stem, s = stem +:+ ".xml".
Proof.
  split; [apply ends_with_xml_stem|]. intros [stem ->]. apply stem_ends_with_xml.
Qed.





Lemma ends_with_xml_iff_witness : ends_with_xml "junit.xml" = true.
Proof.
  exact (proj2 (ends_with_xml_iff "junit.xml") (ex_intro _ "junit"%string eq_refl)).
Defined.

(** ** [report] as a whole *)

Section WholeReport.

Variable TestRail : nat -> ApiCall -> JsValue.
Variable configs : Configs.
Variable HtmlEntities_decode : option string -> string.
Variable JSON_parse : string -> option JsValue.
Variable statSync : string -> Stat.
Variable readXml : string -> Node.

Abbreviation report := (Core.reportXml TestRail configs HtmlEntities_decode JSON_parse
                         statSync readXml).

(** [report] up to the end of the walk over the selected files. *)
Lemma report_after_walk (runId : JsValue) (path : string) (files : list string)
    (fuel : nat) (w : World) :
  truthy runId = true ->
  path <> EmptyString ->
  (forall w', Core.selectFiles statSync path w' = (Ret files, w')) ->
  exists t,
    api_calls t = []
    /\ report fuel runId (VStr path) w
       = match extractEach configs HtmlEntities_decode (map readXml files) with
         | Some rs =>
             (if negb (Nat.eqb (length rs) 0)
              then Core.addResultsForCasesAttempt TestRail configs JSON_parse fuel runId rs
              else console_log (PStr "Did not parse any test XML files.")) (extend w t)
         | None => (Exit 1, extend w t)
         end.
Proof.
  intros Hrun Hpath Hfiles.
  assert (Hvalid : negb (truthy (VStr path)) || negb (truthy runId) = false).
  { rewrite Hrun. simpl. destruct path; [done | reflexivity]. }
  destruct (debug_run configs (PStr "Attempting to report runs for test cases.") w)
    as (t1 & E1 & C1).
  destruct (debug_run configs (PStr "Attempting to parse files:") (extend w t1))
    as (t2 & E2 & C2).
  destruct (debug_run configs (PFiles files) (extend (extend w t1) t2))
    as (t3 & E3 & C3).
  destruct (forEach_files_run configs HtmlEntities_decode readXml files []
              (extend (extend (extend w t1) t2) t3)) as (t4 & E4 & C4).
  exists (t1 ++ t2 ++ t3 ++ t4). split; [by rewrite !api_calls_app, C1, C2, C3, C4|].
  unfold Core.reportXml. rewrite Hvalid. unfold mbind, M_bind, mret, M_ret.
  rewrite E1, Hfiles, E2, E3, E4, !extend_extend.
  by destruct (extractEach configs HtmlEntities_decode (map readXml files)).
Qed.

Lemma extractEach_None (nodes : list Node) :
  Exists (fun xml => extract configs HtmlEntities_decode xml = None) nodes ->
  extractEach configs HtmlEntities_decode nodes = None.
Proof.
  induction 1 as [xml nodes H|xml nodes _ IH]; cbn [extractEach].
  - by rewrite H.
  - rewrite IH. by destruct (extract configs HtmlEntities_decode xml).
Qed.

(** One rejected document stops the whole [report]: when the walk rejects
    any of the selected files, the run ends with exit code 1 without a
    single call to the client, whatever the other files hold, also those
    walked before it. *)
Theorem rejected_file_stops_report (runId : JsValue) (path file : string)
    (files : list string) (fuel : nat) (w : World) :
  truthy runId = true ->
  path <> EmptyString ->
  (forall w', Core.selectFiles statSync path w' = (Ret files, w')) ->
  file ∈ files ->
  extract configs HtmlEntities_decode (readXml file) = None ->
  exists t,
    report fuel runId (VStr path) w = (Exit 1, extend w t) /\ api_calls t = [].
Proof.
  intros Hrun Hpath Hfiles Hin Hbad.
  destruct (report_after_walk runId path files fuel w Hrun Hpath Hfiles)
    as (t & C & E).
  rewrite extractEach_None in E; [by exists t|].
  apply Exists_exists. exists (readXml file). split; [|exact Hbad].
  apply list_elem_of_fmap. by exists file.
Qed.

(** A path that is a file without the [.xml] ending is not read: [report]
    prints "Did not parse any test XML files." and returns, without
    exiting and without a call to the client, whatever the file holds. *)
Theorem other_file_is_not_read (runId : JsValue) (path : string)
    (fuel : nat) (w : World) :
  truthy runId = true ->
  path <> EmptyString ->
  statSync path = IsFile ->
  ends_with_xml path = false ->
  exists t,
    report fuel runId (VStr path) w = (Ret tt, extend w t)
    /\ api_calls t = []
    /\ Log (PStr "Did not parse any test XML files.") ∈ t.
Proof.
  intros Hrun Hpath Hstat Hxml.
  assert (Hfiles : forall w', Core.selectFiles statSync path w' = (Ret [], w')).
  { intros w'. unfold Core.selectFiles. by rewrite Hstat, Hxml. }
  destruct (report_after_walk runId path [] fuel w Hrun Hpath Hfiles)
    as (t & C & E).
  exists (t ++ [Log (PStr "Did not parse any test XML files.")]).
  rewrite E. cbn. unfold console_log. rewrite emit_run, extend_extend.
  split; [reflexivity|]. split; [by rewrite api_calls_app, C | set_solver].
Qed.

(** With its arguments given, [report] always comes to an end: it returns
    after the no-op message, or exits, or stops on an exception; all its
    calls to the client carry one and the same batch, and there are at most
    [maxCallAttemptsAllowed - apiCallsAttempted + 1] of them. *)
Theorem report_ends (runId : JsValue) (path : string) (files : list string)
    (fuel : nat) (w : World) :
  truthy runId = true ->
  path <> EmptyString ->
  (forall w', Core.selectFiles statSync path w' = (Ret files, w')) ->
  (Core.maxCallAttemptsAllowed - apiCallsAttempted w < fuel)%nat ->
  exists r m t batch k,
    report fuel runId (VStr path) w = (r, after w m t)
    /\ api_calls t = repeat (addResultsForCases runId batch) k
    /\ (k <= S (Core.maxCallAttemptsAllowed - apiCallsAttempted w))%nat
    /\ (r = Ret tt \/ r = Exit 0 \/ r = Exit 1
        \/ r = Throw "SyntaxError" \/ r = Throw "TypeError").
Proof.
  intros Hrun Hpath Hfiles Hfuel.
  destruct (report_after_walk runId path files fuel w Hrun Hpath Hfiles) as (t & C & E).
  rewrite E. clear E.
  destruct (extractEach configs HtmlEntities_decode (map readXml files)) as [rs|].
  2:{ exists (Exit 1), (apiCallsAttempted w), t, [], 0%nat.
      split; [reflexivity|]. split; [exact C|]. split; [lia | auto]. }
  destruct rs as [|r0 rs]; cbn [length Nat.eqb negb].
  - exists (Ret tt), (apiCallsAttempted w),
      (t ++ [Log (PStr "Did not parse any test XML files.")]), [], 0%nat.
    unfold console_log. rewrite emit_run, extend_extend.
    split; [reflexivity|]. split; [by rewrite api_calls_app, C|]. split; [lia | auto].
  - destruct (loop_ends_within TestRail JSON_parse _ _
                (upload_turn TestRail configs JSON_parse runId (r0 :: rs))
                fuel (extend w t) Hfuel) as (r & j & t' & E & C' & Hj & Hr).
    exists r, (apiCallsAttempted w + j)%nat, (t ++ t'), (r0 :: rs), (S j).
    rewrite E. split.
    + unfold after, extend. cbn. by rewrite app_assoc.
    + split; [by rewrite api_calls_app, C, C'|]. split; [unfold extend in Hj; cbn [apiCallsAttempted] in Hj; lia|].
      destruct Hr as [->|[->|[->| ->]]]; auto.
Qed.

End WholeReport.

Lemma report_ends_witness :
  exists r m t batch k,
    Core.reportXml always_down scenario_configs decode_xml no_json
      scenario_stat scenario_read 7 (VInt 10) (VStr "suite.xml") fresh = (r, after fresh m t)
    /\ api_calls t = repeat (addResultsForCases (VInt 10) batch) k
    /\ (k <= 6)%nat.
Proof.
  destruct (report_ends always_down scenario_configs decode_xml no_json
              scenario_stat scenario_read (VInt 10) "suite.xml" ["suite.xml"] 7 fresh
              eq_refl ltac:(discriminate) (fun w' => eq_refl) (le_S _ _ (le_n 6)))
    as (r & m & t & batch & k & E & C & Hk & _).
  exists r, m, t, batch, k. split; [exact E|]. split; [exact C | exact Hk].
Defined.

Lemma rejected_file_stops_report_witness :
  exists t,
    Core.reportXml accepting scenario_configs decode_xml no_json reports_stat reports_read
      7 (VInt 10) (VStr "reports") fresh = (Exit 1, extend fresh t)
    /\ api_calls t = [].
Proof.
  exact (rejected_file_stops_report accepting scenario_configs decode_xml no_json
           reports_stat reports_read (VInt 10) "reports" "reports/b.xml"
           ["reports/a.xml"; "reports/b.xml"] 7 fresh eq_refl ltac:(discriminate)
           (fun w' => eq_refl) ltac:(constructor; constructor) eq_refl).
Defined.

Lemma other_file_is_not_read_witness :
  exists t,
    Core.reportXml accepting scenario_configs decode_xml no_json reports_stat reports_read
      7 (VInt 10) (VStr "notes.txt") fresh = (Ret tt, extend fresh t)
    /\ api_calls t = []
    /\ Log (PStr "Did not parse any test XML files.") ∈ t.
Proof.
  exact (other_file_is_not_read accepting scenario_configs decode_xml no_json
           reports_stat reports_read (VInt 10) "notes.txt" 7 fresh
           eq_refl ltac:(discriminate) eq_refl eq_refl).
Defined.

(** ** The resolver and the elapsed time, in full *)

Section Resolver.

Variable configs : Configs.
Variable HtmlEntities_decode : option string -> string.


End Resolver.





(** ** The earlier revision *)

Section Earlier.

Variable configs : Configs.
Variable HtmlEntities_decode : option string -> string.

Abbreviation eachFile0 := (Part000.eachFile configs HtmlEntities_decode).

Lemma Part000_forEach_throws (cs : list Node) :
  caseNameToIdMap configs = None ->
  Exists (fun c => isTestcase c = true) cs ->
  forall acc w,
    forEach (Part000.eachTestcase configs HtmlEntities_decode) cs acc w
    = (Throw "TypeError", w).
Proof.
  intros Hnone. induction 1 as [c cs Hc|c cs _ IH]; intros acc w; cbn [forEach].
  - unfold mbind, M_bind, Part000.eachTestcase. unfold isTestcase in Hc.
    by rewrite Hc, Hnone.
  - unfold mbind, M_bind, Part000.eachTestcase at 1.
    destruct (String.eqb (name c) "testcase"); [by rewrite Hnone | apply IH].
Qed.

(** The two ways the earlier revision fails on a file.  Any root but
    [testsuite] is rejected with exit code 1, a [testsuites] root included
    (it has no multi-suite branch); and without the flat table
    [caseNameToIdMap] the first [testcase] child ends the run with a
    TypeError, since the table is indexed unguarded. *)
Theorem earlier_revision_failures (xml : Node) (acc : list CaseResult) (w : World) :
  (name xml <> "testsuite" ->
   exists t,
     eachFile0 xml acc w = (Exit 1, extend w t)
     /\ api_calls t = []
     /\ Error (PStr "Invalid xml. Expected root name testsuite") ∈ t)
  /\ (name xml = "testsuite" ->
      caseNameToIdMap configs = None ->
      Exists (fun c => isTestcase c = true) (children xml) ->
      eachFile0 xml acc w = (Throw "TypeError", w)).
Proof.
  split.
  - intros Hroot. apply String.eqb_neq in Hroot.
    unfold Part000.eachFile. rewrite Hroot. cbn [negb].
    unfold Part000.debug, Core.debug.
    destruct (configs_debug configs); run_monad;
      (eexists; split; [unfold extend; simpl; rewrite <- ?app_assoc; reflexivity|]);
      (split; [reflexivity | set_solver]).
  - intros Hroot Hnone Hex. unfold Part000.eachFile. rewrite Hroot.
    cbn [String.eqb Ascii.eqb Bool.eqb negb andb]. unfold mbind, M_bind, mret, M_ret.
    destruct (children xml) as [|c cs] eqn:Hcs; [by apply Exists_nil in Hex|].
    cbn [length Nat.eqb negb]. by apply Part000_forEach_throws.
Qed.


End Earlier.

Lemma earlier_revision_failures_witness :
  exists t,
    Part000.eachFile flat_configs decode_xml (MkNode "testsuites" ∅ [scenario_suite]) [] fresh
    = (Exit 1, extend fresh t)
    /\ api_calls t = [].
Proof.
  destruct (proj1 (earlier_revision_failures flat_configs decode_xml
                     (MkNode "testsuites" ∅ [scenario_suite]) [] fresh)
              ltac:(discriminate)) as (t & E & C & _).
  exists t. split; [exact E | exact C].
Defined.

